(** * Crunchbase MCP server: data access adapter and request router

    A shallow embedding of [src/crunchbase-api.ts] (the adapter, class
    [CrunchbaseAPI]), [src/types.ts] (the records) and [src/index.ts] (the
    router, class [CrunchbaseMcpServer]), followed by the properties of the
    specification that concern them.

    Conventions of the embedding:
    - a JavaScript [number] is an IEEE-754 binary64 value, [spec_float];
    - a JavaScript string is a [string] of bytes (its UTF-8 encoding);
    - an optional property ([x?: T]) is an [option T], [None] standing for
      [undefined];
    - [async] code runs in the monad [Async]: it reads the upstream service,
      emits the HTTP exchanges it performs and completes normally or by a
      throw;
    - [console.error] writes a diagnostic on stderr and is left out. *)

From Stdlib Require Import ZArith NArith String Ascii List SpecFloat Lia.
From stdpp Require Import base strings gmap pretty.

Open Scope string_scope.

(* ================================================================== *)
(** * Part I: definitions *)
(* ================================================================== *)

(** ** JavaScript values *)

Module Js.

Definition number : Type := spec_float.

(** The binary64 value of an integer literal. *)
Definition Number (z : Z) : number := binary_normalize 53 1024 z 0 false.
Arguments Number : simpl never.

(** [ToBoolean] on a number: [+0], [-0] and [NaN] are falsy. *)
Definition truthy_number (x : number) : bool :=
  match x with
  | S754_zero _ | S754_nan => false
  | S754_infinity _ | S754_finite _ _ _ => true
  end.

(** [ToBoolean] on a string: the empty string is falsy. *)
Definition truthy_string (s : string) : bool :=
  match s with
  | EmptyString => false
  | String _ _ => true
  end.

(** [x === y] on numbers. *)
Definition strict_eq_number (x y : number) : bool := SFeqb x y.

(** [x || d] where [x] is an optional property. *)
Definition or_else {A : Type} (truthy : A -> bool) (x : option A) (d : A) : A :=
  match x with
  | Some v => if truthy v then v else d
  | None => d
  end.

(** [if (x)] where [x] is an optional property. *)
Definition truthy_opt {A : Type} (truthy : A -> bool) (x : option A) : bool :=
  match x with
  | Some v => truthy v
  | None => false
  end.

(** A value as it arrives in a JSON request. *)
#[warnings="-register-all"] Inductive JsValue : Type :=
| JNull
| JBool (b : bool)
| JNum (x : number)
| JStr (s : string)
| JArr (l : list JsValue)
| JObj (m : gmap string JsValue).

Inductive TypeTag := TObject | TBoolean | TNumber | TString | TUndefined.

(** [typeof v] for a property that may be missing. *)
Definition typeof (v : option JsValue) : TypeTag :=
  match v with
  | None => TUndefined
  | Some JNull => TObject
  | Some (JBool _) => TBoolean
  | Some (JNum _) => TNumber
  | Some (JStr _) => TString
  | Some (JArr _) => TObject
  | Some (JObj _) => TObject
  end.

(** [typeof v === 'string' ? v : undefined] *)
Definition string_or_undefined (v : option JsValue) : option string :=
  match v with
  | Some (JStr s) => Some s
  | _ => None
  end.

(** [typeof v === 'number' ? v : undefined] *)
Definition number_or_undefined (v : option JsValue) : option number :=
  match v with
  | Some (JNum x) => Some x
  | _ => None
  end.

End Js.

(** ** Records of [types.ts] *)

Module Types.
Import Js.

Record CrunchbaseApiResponse (T : Type) := {
  data : T;
  count : number;
  total_count : number
}.
Arguments data {T} _.
Arguments count {T} _.
Arguments total_count {T} _.

Record LocationIdentifier := {
  location_uuid : string;
  location_name : string;
  location_type : string
}.

Record Category := {
  category_uuid : string;
  category_name : string
}.

Record Company := {
  uuid : string;
  name : string;
  short_description : string;
  website_url : string;
  linkedin_url : option string;
  twitter_url : option string;
  facebook_url : option string;
  logo_url : option string;
  location_identifiers : option (list LocationIdentifier);
  categories : option (list Category);
  founded_on : option string;
  closed_on : option string;
  num_employees_min : option number;
  num_employees_max : option number;
  status : option string;
  rank : option number;
  created_at : option string;
  updated_at : option string
}.

Record InvestorIdentifier := {
  investor_uuid : string;
  investor_name : string;
  investor_type : string
}.

Record FundingRound := {
  round_uuid : string;
  round_name : string;
  round_announced_on : string;
  round_closed_on : option string;
  investment_type : string;
  money_raised : option number;
  money_raised_currency_code : option string;
  target_money_raised : option number;
  target_money_raised_currency_code : option string;
  investor_identifiers : option (list InvestorIdentifier);
  lead_investor_identifiers : option (list InvestorIdentifier);
  round_created_at : string;
  round_updated_at : string
}.

Record EntityRef := {
  ref_uuid : string;
  ref_name : string
}.

Record Acquisition := {
  acquisition_uuid : string;
  acquirer_identifier : EntityRef;
  acquiree_identifier : EntityRef;
  announced_on : string;
  completed_on : option string;
  price : option number;
  price_currency_code : option string;
  acquisition_type : option string;
  acquisition_status : option string;
  acquisition_terms : option string;
  acquisition_created_at : string;
  acquisition_updated_at : string
}.

Record Person := {
  person_uuid : string;
  first_name : string;
  last_name : string;
  person_name : string;
  gender : option string;
  person_linkedin_url : option string;
  person_twitter_url : option string;
  person_facebook_url : option string;
  featured_job_organization_uuid : option string;
  featured_job_organization_name : option string;
  featured_job_title : option string;
  person_rank : option number;
  person_created_at : string;
  person_updated_at : string
}.

Record SearchCompaniesInput := {
  sc_query : option string;
  sc_location : option string;
  sc_category : option string;
  sc_founded_after : option string;
  sc_founded_before : option string;
  sc_status : option string;
  sc_limit : option number
}.

Record GetCompanyDetailsInput := {
  name_or_id : string
}.

Record GetFundingRoundsInput := {
  fr_company_name_or_id : string;
  fr_limit : option number
}.

Record GetAcquisitionsInput := {
  acq_company_name_or_id : option string;
  acq_limit : option number
}.

Record SearchPeopleInput := {
  sp_query : option string;
  sp_company : option string;
  sp_title : option string;
  sp_limit : option number
}.

End Types.

(** ** Thrown values, the upstream service and the [Async] monad *)

Module Http.
Import Js Types.

(** The codes of the protocol's [ErrorCode] enum that the router uses. *)
Inductive ErrorCode := InvalidRequest | MethodNotFound | InvalidParams | InternalError.

(** [error.response] of an axios error: the HTTP status and the [message]
    property of the response body, when the body has one. *)
Record AxiosResponse := {
  resp_status : N;
  resp_data_message : option string
}.

Inductive ErrorClass := ClsError | ClsTypeError | ClsURIError.

(** Whatever a [catch] clause can receive. [McpErrorObj] keeps the code and
    the message argument its constructor was given. *)
Inductive Thrown : Type :=
| ErrorObj (cls : ErrorClass) (message : string)
| AxiosErrorObj (message : string) (response : option AxiosResponse)
| McpErrorObj (code : ErrorCode) (message : string)
| NonErrorValue (v : JsValue).

(** [error instanceof Error] *)
Definition instanceof_Error (error : Thrown) : bool :=
  match error with
  | NonErrorValue _ => false
  | _ => true
  end.

(** [error instanceof McpError] *)
Definition instanceof_McpError (error : Thrown) : bool :=
  match error with
  | McpErrorObj _ _ => true
  | _ => false
  end.

(** The query parameters and path of one [client.get] call; a parameter the
    call does not pass is [None]. *)
Record Request := {
  req_url : string;
  req_query : option string;
  req_limit : option number;
  req_order : option string
}.

(** How a [client.get] promise settles: axios rejects with an axios error. *)
Inductive HttpOutcome (A : Type) : Type :=
| Fulfilled (body : A)
| Rejected (message : string) (response : option AxiosResponse).
Arguments Fulfilled {A} _.
Arguments Rejected {A} _ _.

(** One exchange with the upstream service: the request and, when the call
    was rejected, the error it was rejected with. *)
Record Exchange := {
  ex_request : Request;
  ex_rejection : option Thrown
}.

Definition History : Type := list Exchange.

(** The upstream REST service, one entry per response type the adapter asks
    [client.get<T>] for. An answer may depend on the exchanges so far. *)
Record Upstream := {
  organizations_search : History -> Request -> HttpOutcome (CrunchbaseApiResponse (list Company));
  organization_entity : History -> Request -> HttpOutcome Company;
  funding_rounds_list : History -> Request -> HttpOutcome (CrunchbaseApiResponse (list FundingRound));
  acquisitions_search : History -> Request -> HttpOutcome (CrunchbaseApiResponse (list Acquisition));
  people_search : History -> Request -> HttpOutcome (CrunchbaseApiResponse (list Person))
}.

Inductive Completion (A : Type) : Type :=
| Return (a : A)
| Throw (e : Thrown).
Arguments Return {A} _.
Arguments Throw {A} _.

(** An asynchronous computation: given the service and the exchanges that
    came before it, its completion and the exchanges it performed. *)
Definition Async (A : Type) : Type := Upstream -> History -> Completion A * History.

Definition ret {A : Type} (a : A) : Async A :=
  fun _ _ => (Return a, []).

Definition throw {A : Type} (e : Thrown) : Async A :=
  fun _ _ => (Throw e, []).

Definition bind {A B : Type} (m : Async A) (k : A -> Async B) : Async B :=
  fun up past =>
    match m up past with
    | (Return a, done) =>
        let (r, more) := k a up (past ++ done)%list in (r, (done ++ more)%list)
    | (Throw e, done) => (Throw e, done)
    end.

(** [try { m } catch (error) { handler(error) }] *)
Definition try_catch {A : Type} (m : Async A) (handler : Thrown -> Async A) : Async A :=
  fun up past =>
    match m up past with
    | (Return a, done) => (Return a, done)
    | (Throw e, done) =>
        let (r, more) := handler e up (past ++ done)%list in (r, (done ++ more)%list)
    end.

(** [await this.client.get<T>(url, { params })] against one endpoint. *)
Definition client_get {A : Type}
    (endpoint : Upstream -> History -> Request -> HttpOutcome A)
    (req : Request) : Async A :=
  fun up past =>
    match endpoint up past req with
    | Fulfilled body =>
        (Return body, [{| ex_request := req; ex_rejection := None |}])
    | Rejected message response =>
        let error := AxiosErrorObj message response in
        (Throw error, [{| ex_request := req; ex_rejection := Some error |}])
    end.

Definition run {A : Type} (m : Async A) (up : Upstream) (past : History) : Completion A * History :=
  m up past.

End Http.

Declare Scope async_scope.
Delimit Scope async_scope with async.
Notation "x <- m ;; k" := (Http.bind m (fun x => k))
  (at level 100, m at next level, right associativity) : async_scope.

(** ** The adapter, [crunchbase-api.ts] *)

Module Adapter.
Import Js Types Http.
Open Scope async_scope.

(** [`${status}`] for [error.response?.status]. *)
Definition status_text (status : option N) : string :=
  match status with
  | Some n => pretty n
  | None => "undefined"
  end.

(** [status === n] for [status = error.response?.status]. *)
Definition status_is (status : option N) (n : N) : bool :=
  match status with
  | Some k => N.eqb k n
  | None => false
  end.

(** The first branch is [axios.isAxiosError(error)]. *)
Definition handleError (error : Thrown) : Thrown :=
  match error with
  | AxiosErrorObj error_message response =>
      let status := option_map resp_status response in
      let message :=
        or_else truthy_string
          (match response with Some r => resp_data_message r | None => None end)
          error_message in
      if status_is status 401 then
        ErrorObj ClsError "Unauthorized: Invalid API key"
      else if status_is status 404 then
        ErrorObj ClsError "Not found: The requested resource does not exist"
      else if status_is status 429 then
        ErrorObj ClsError "Rate limit exceeded: Too many requests"
      else
        ErrorObj ClsError
          ("Crunchbase API error (" ++ status_text status ++ "): " ++ message)
  | _ => if instanceof_Error error then error else ErrorObj ClsError "Unknown error"
  end.

Arguments handleError : simpl never.

(** [catch (error) { throw this.handleError(error); }] *)
Definition rethrow_handled {A : Type} (error : Thrown) : Async A :=
  throw (handleError error).

(** [if (value) { query += `${clause}${value}`; }] *)
Definition add_filter (query clause : string) (value : option string) : string :=
  match value with
  | Some v => if truthy_string v then query ++ clause ++ v else query
  | None => query
  end.

Definition searchCompanies_query (params : SearchCompaniesInput) : string :=
  let query := or_else truthy_string (sc_query params) "" in
  let query := add_filter query " AND location:" (sc_location params) in
  let query := add_filter query " AND category:" (sc_category params) in
  let query := add_filter query " AND founded_on:>=" (sc_founded_after params) in
  let query := add_filter query " AND founded_on:<=" (sc_founded_before params) in
  let query := add_filter query " AND status:" (sc_status params) in
  query.

Definition searchCompanies (params : SearchCompaniesInput) : Async (list Company) :=
  try_catch
    (let query := searchCompanies_query params in
     response <- client_get organizations_search
       {| req_url := "/searches/organizations";
          req_query := Some query;
          req_limit := Some (or_else truthy_number (sc_limit params) (Number 10));
          req_order := Some "rank DESC" |} ;;
     ret (data response))
    rethrow_handled.

(** The message of the [TypeError] that reading [.uuid] of [undefined]
    raises (V8's wording; no property below depends on it). *)
Definition uuid_of_undefined_message : string :=
  "Cannot read properties of undefined (reading 'uuid')".

Definition getCompanyDetails (params : GetCompanyDetailsInput) : Async Company :=
  try_catch
    (searchResponse <- client_get organizations_search
       {| req_url := "/searches/organizations";
          req_query := Some (name_or_id params);
          req_limit := Some (Number 1);
          req_order := None |} ;;
     if strict_eq_number (count searchResponse) (Number 0) then
       throw (ErrorObj ClsError ("Company not found: " ++ name_or_id params))
     else
       match data searchResponse with
       | [] => throw (ErrorObj ClsTypeError uuid_of_undefined_message)
       | first :: _ =>
           let companyId := uuid first in
           detailsResponse <- client_get organization_entity
             {| req_url := "/entities/organizations/" ++ companyId;
                req_query := None;
                req_limit := None;
                req_order := None |} ;;
           ret detailsResponse
       end)
    rethrow_handled.

Definition getFundingRounds (params : GetFundingRoundsInput) : Async (list FundingRound) :=
  try_catch
    (company <- getCompanyDetails {| name_or_id := fr_company_name_or_id params |} ;;
     response <- client_get funding_rounds_list
       {| req_url := "/entities/organizations/" ++ uuid company ++ "/funding_rounds";
          req_query := None;
          req_limit := Some (or_else truthy_number (fr_limit params) (Number 10));
          req_order := Some "announced_on DESC" |} ;;
     ret (data response))
    rethrow_handled.

Definition getAcquisitions (params : GetAcquisitionsInput) : Async (list Acquisition) :=
  try_catch
    (companyId <-
       (match acq_company_name_or_id params with
        | Some ref =>
            if truthy_string ref then
              company <- getCompanyDetails {| name_or_id := ref |} ;;
              ret (Some (uuid company))
            else ret None
        | None => ret None
        end) ;;
     let query :=
       match companyId with
       | Some id =>
           if truthy_string id then
             "acquirer_identifier.uuid:" ++ id ++ " OR acquiree_identifier.uuid:" ++ id
           else ""
       | None => ""
       end in
     response <- client_get acquisitions_search
       {| req_url := "/searches/acquisitions";
          req_query := Some query;
          req_limit := Some (or_else truthy_number (acq_limit params) (Number 10));
          req_order := Some "announced_on DESC" |} ;;
     ret (data response))
    rethrow_handled.

Definition searchPeople_query (params : SearchPeopleInput) : string :=
  let query := or_else truthy_string (sp_query params) "" in
  let query := add_filter query " AND featured_job_organization_name:" (sp_company params) in
  let query := add_filter query " AND featured_job_title:" (sp_title params) in
  query.

Definition searchPeople (params : SearchPeopleInput) : Async (list Person) :=
  try_catch
    (let query := searchPeople_query params in
     response <- client_get people_search
       {| req_url := "/searches/people";
          req_query := Some query;
          req_limit := Some (or_else truthy_number (sp_limit params) (Number 10));
          req_order := Some "rank DESC" |} ;;
     ret (data response))
    rethrow_handled.

End Adapter.

(** ** URI handling: [decodeURIComponent] and the resource templates *)

Module Uri.
Import Js.

Definition hex_digit (c : ascii) : option N :=
  let n := N_of_ascii c in
  if (48 <=? n)%N && (n <=? 57)%N then Some (n - 48)%N
  else if (65 <=? n)%N && (n <=? 70)%N then Some (n - 55)%N
  else if (97 <=? n)%N && (n <=? 102)%N then Some (n - 87)%N
  else None.

(** The octet written [%h1h2]. *)
Definition escape_octet (h1 h2 : ascii) : option N :=
  match hex_digit h1, hex_digit h2 with
  | Some a, Some b => Some (16 * a + b)%N
  | _, _ => None
  end.

(** The number of leading 1 bits of an octet (5 stands for "more than 4"). *)
Definition leading_ones (b : N) : nat :=
  if (b <? 128)%N then 0
  else if (b <? 192)%N then 1
  else if (b <? 224)%N then 2
  else if (b <? 240)%N then 3
  else if (b <? 248)%N then 4
  else 5.

Definition in_range (lo hi b : N) : bool := (lo <=? b)%N && (b <=? hi)%N.

(** Whether the octets are the UTF-8 encoding of one code point. *)
Definition valid_utf8 (octets : list N) : bool :=
  match octets with
  | [b0; b1] => in_range 194 223 b0 && in_range 128 191 b1
  | [b0; b1; b2] =>
      (  (N.eqb b0 224 && in_range 160 191 b1)
      || (in_range 225 236 b0 && in_range 128 191 b1)
      || (N.eqb b0 237 && in_range 128 159 b1)
      || (in_range 238 239 b0 && in_range 128 191 b1))
      && in_range 128 191 b2
  | [b0; b1; b2; b3] =>
      (  (N.eqb b0 240 && in_range 144 191 b1)
      || (in_range 241 243 b0 && in_range 128 191 b1)
      || (N.eqb b0 244 && in_range 128 143 b1))
      && in_range 128 191 b2 && in_range 128 191 b3
  | _ => false
  end.

Fixpoint string_of_octets (octets : list N) : string :=
  match octets with
  | [] => EmptyString
  | b :: rest => String (ascii_of_N b) (string_of_octets rest)
  end.

(** The abstract operation Decode of ECMA-262 with an empty reserved set,
    as one pass over the string: [octets] are the octets of the multi-byte
    sequence being read and [need] the number still expected. [None] is the
    [URIError] exception. *)
Fixpoint Decode (s : string) (octets : list N) (need : nat) : option string :=
  match s with
  | EmptyString =>
      match need with
      | O => Some EmptyString
      | S _ => None
      end
  | String c rest =>
      if Ascii.eqb c "%" then
        match rest with
        | String h1 (String h2 rest') =>
            match escape_octet h1 h2 with
            | None => None
            | Some b =>
                match need with
                | O =>
                    match leading_ones b with
                    | 0 => option_map (String (ascii_of_N b)) (Decode rest' [] 0)
                    | 2 => Decode rest' [b] 1
                    | 3 => Decode rest' [b] 2
                    | 4 => Decode rest' [b] 3
                    | _ => None
                    end
                | S O =>
                    let octets' := (octets ++ [b])%list in
                    if valid_utf8 octets' then
                      option_map (String.append (string_of_octets octets')) (Decode rest' [] 0)
                    else None
                | S (S _ as need') => Decode rest' (octets ++ [b])%list need'
                end
            end
        | _ => None
        end
      else
        match need with
        | O => option_map (String c) (Decode rest [] 0)
        | S _ => None
        end
  end.

Definition decodeURIComponent (s : string) : option string := Decode s [] 0.

(** [s] without the prefix [p], when it starts with it. *)
Fixpoint strip_prefix (p s : string) : option string :=
  match p with
  | EmptyString => Some s
  | String a p' =>
      match s with
      | EmptyString => None
      | String b s' => if Ascii.eqb a b then strip_prefix p' s' else None
      end
  end.

(** The longest prefix of [s] without a slash, and what follows it. *)
Fixpoint span_segment (s : string) : string * string :=
  match s with
  | EmptyString => (EmptyString, EmptyString)
  | String c rest =>
      if Ascii.eqb c "/" then (EmptyString, s)
      else let (seg, tail) := span_segment rest in (String c seg, tail)
  end.

(** [uri.match(/^crunchbase:\/\/companies\/([^/]+)SUFFIX$/)], giving the
    captured group; [suffix] is empty or starts with a slash. *)
Definition match_companies (suffix uri : string) : option string :=
  match strip_prefix "crunchbase://companies/" uri with
  | None => None
  | Some rest =>
      let (seg, tail) := span_segment rest in
      if truthy_string seg && String.eqb tail suffix then Some seg else None
  end.

End Uri.

(** ** The router, [index.ts] *)

Module Router.
Import Js Types Http Adapter Uri.
Open Scope async_scope.

(** What a handler serialises with [JSON.stringify(result, null, 2)]. *)
Inductive Payload : Type :=
| PCompanies (l : list Company)
| PCompany (c : Company)
| PFundingRounds (l : list FundingRound)
| PAcquisitions (l : list Acquisition)
| PPeople (l : list Person).

Record ResourceContent := {
  rc_uri : string;
  rc_mimeType : string;
  rc_text : string
}.

Record ReadResourceResult := {
  contents : list ResourceContent
}.

Record TextContent := {
  tc_type : string;
  tc_text : string
}.

(** [isError] is [None] where the handler leaves the property out. *)
Record CallToolResult := {
  content : list TextContent;
  isError : option bool
}.

(** [request.params] of a tool call; the protocol runtime hands over
    [arguments] as an object or not at all. *)
Record CallToolRequest := {
  tool_name : string;
  arguments : option (gmap string JsValue)
}.

(** [key in args] *)
Definition has_key (key : string) (args : gmap string JsValue) : bool :=
  match args !! key with
  | Some _ => true
  | None => false
  end.

(** The message of the [URIError] of [decodeURIComponent] (V8's wording). *)
Definition uri_malformed_message : string := "URI malformed".

Definition decodeURIComponent_async (s : string) : Async string :=
  match decodeURIComponent s with
  | Some decoded => ret decoded
  | None => throw (ErrorObj ClsURIError uri_malformed_message)
  end.

Section Handlers.

(** [JSON.stringify(value, null, 2)], a built-in. *)
Variable JSON_stringify : Payload -> string.

(** The [message] property that the protocol library's [McpError]
    constructor derives from the code and the message it is given; the class
    belongs to the library, not to this repository. *)
Variable McpError_message : ErrorCode -> string -> string.

(** [error.message] of an [Error] instance. *)
Definition error_message (error : Thrown) : string :=
  match error with
  | ErrorObj _ message => message
  | AxiosErrorObj message _ => message
  | McpErrorObj code message => McpError_message code message
  | NonErrorValue _ => EmptyString
  end.

(** [error instanceof Error ? error.message : 'Unknown error'] *)
Definition message_or_unknown (error : Thrown) : string :=
  if instanceof_Error error then error_message error else "Unknown error".

Definition json_contents (uri : string) (value : Payload) : ReadResourceResult :=
  {| contents :=
       [ {| rc_uri := uri;
            rc_mimeType := "application/json";
            rc_text := JSON_stringify value |} ] |}.

(** The [try] block of the resource-read handler. *)
Definition ReadResource_try (uri : string) : Async ReadResourceResult :=
  if String.eqb uri "crunchbase://trending/companies" then
    companies <- searchCompanies
      {| sc_query := None; sc_location := None; sc_category := None;
         sc_founded_after := None; sc_founded_before := None;
         sc_status := None; sc_limit := Some (Number 10) |} ;;
    ret (json_contents uri (PCompanies companies))
  else
    match match_companies "" uri with
    | Some segment =>
        companyName <- decodeURIComponent_async segment ;;
        company <- getCompanyDetails {| name_or_id := companyName |} ;;
        ret (json_contents uri (PCompany company))
    | None =>
        match match_companies "/funding" uri with
        | Some segment =>
            companyName <- decodeURIComponent_async segment ;;
            fundingRounds <- getFundingRounds
              {| fr_company_name_or_id := companyName; fr_limit := None |} ;;
            ret (json_contents uri (PFundingRounds fundingRounds))
        | None =>
            match match_companies "/acquisitions" uri with
            | Some segment =>
                companyName <- decodeURIComponent_async segment ;;
                acquisitions <- getAcquisitions
                  {| acq_company_name_or_id := Some companyName; acq_limit := None |} ;;
                ret (json_contents uri (PAcquisitions acquisitions))
            | None =>
                throw (McpErrorObj InvalidRequest ("Invalid URI: " ++ uri))
            end
        end
    end.

(** The [catch] block of the resource-read handler. *)
Definition ReadResource_catch (error : Thrown) : Async ReadResourceResult :=
  if instanceof_McpError error then throw error
  else throw (McpErrorObj InternalError (message_or_unknown error)).

(** The handler registered for [ReadResourceRequestSchema]. *)
Definition ReadResource (uri : string) : Async ReadResourceResult :=
  try_catch (ReadResource_try uri) ReadResource_catch.

Definition text_result (value : Payload) : CallToolResult :=
  {| content := [ {| tc_type := "text"; tc_text := JSON_stringify value |} ];
     isError := None |}.

(** The [try] block of the tool-call handler. *)
Definition CallTool_try (request : CallToolRequest) : Async CallToolResult :=
  let name := tool_name request in
  let args := arguments request in
  if String.eqb name "search_companies" then
    match args with
    | None => throw (McpErrorObj InvalidParams "Invalid parameters")
    | Some args =>
        let params :=
          {| sc_query := string_or_undefined (args !! "query");
             sc_location := string_or_undefined (args !! "location");
             sc_category := string_or_undefined (args !! "category");
             sc_founded_after := string_or_undefined (args !! "founded_after");
             sc_founded_before := string_or_undefined (args !! "founded_before");
             sc_status := string_or_undefined (args !! "status");
             sc_limit := number_or_undefined (args !! "limit") |} in
        companies <- searchCompanies params ;;
        ret (text_result (PCompanies companies))
    end
  else if String.eqb name "get_company_details" then
    match args with
    | None => throw (McpErrorObj InvalidParams "Missing or invalid name_or_id parameter")
    | Some args =>
        if negb (has_key "name_or_id" args) then
          throw (McpErrorObj InvalidParams "Missing or invalid name_or_id parameter")
        else
          match string_or_undefined (args !! "name_or_id") with
          | None =>
              throw (McpErrorObj InvalidParams "Missing or invalid name_or_id parameter")
          | Some value =>
              let params := {| name_or_id := value |} in
              company <- getCompanyDetails params ;;
              ret (text_result (PCompany company))
          end
    end
  else if String.eqb name "get_funding_rounds" then
    match args with
    | None =>
        throw (McpErrorObj InvalidParams "Missing or invalid company_name_or_id parameter")
    | Some args =>
        if negb (has_key "company_name_or_id" args) then
          throw (McpErrorObj InvalidParams "Missing or invalid company_name_or_id parameter")
        else
          match string_or_undefined (args !! "company_name_or_id") with
          | None =>
              throw (McpErrorObj InvalidParams
                       "Missing or invalid company_name_or_id parameter")
          | Some value =>
              let params :=
                {| fr_company_name_or_id := value;
                   fr_limit := number_or_undefined (args !! "limit") |} in
              fundingRounds <- getFundingRounds params ;;
              ret (text_result (PFundingRounds fundingRounds))
          end
    end
  else if String.eqb name "get_acquisitions" then
    match args with
    | None => throw (McpErrorObj InvalidParams "Invalid parameters")
    | Some args =>
        let params :=
          {| acq_company_name_or_id := string_or_undefined (args !! "company_name_or_id");
             acq_limit := number_or_undefined (args !! "limit") |} in
        acquisitions <- getAcquisitions params ;;
        ret (text_result (PAcquisitions acquisitions))
    end
  else if String.eqb name "search_people" then
    match args with
    | None => throw (McpErrorObj InvalidParams "Invalid parameters")
    | Some args =>
        let params :=
          {| sp_query := string_or_undefined (args !! "query");
             sp_company := string_or_undefined (args !! "company");
             sp_title := string_or_undefined (args !! "title");
             sp_limit := number_or_undefined (args !! "limit") |} in
        people <- searchPeople params ;;
        ret (text_result (PPeople people))
    end
  else
    throw (McpErrorObj MethodNotFound ("Unknown tool: " ++ name)).

(** The [catch] block of the tool-call handler. *)
Definition CallTool_catch (error : Thrown) : Async CallToolResult :=
  ret {| content := [ {| tc_type := "text"; tc_text := message_or_unknown error |} ];
         isError := Some true |}.

(** The handler registered for [CallToolRequestSchema]. *)
Definition CallTool (request : CallToolRequest) : Async CallToolResult :=
  try_catch (CallTool_try request) CallTool_catch.

End Handlers.

End Router.

(** ** The specification's vocabulary *)

Module Spec.
Import Js Types Http Adapter Uri Router.
Open Scope async_scope.

(** The [field:value] clause of a filter, when the filter is present and
    not empty. *)
Definition clause (field : string) (value : option string) : list string :=
  match value with
  | Some v => if truthy_string v then [field ++ v] else []
  | None => []
  end.

(** The clauses AND-ed, in order, onto the free-text term. *)
Definition conjoin (free_text : option string) (clauses : list string) : string :=
  fold_left (fun query c => query ++ " AND " ++ c) clauses
    (match free_text with Some q => q | None => EmptyString end).

Definition company_clauses (params : SearchCompaniesInput) : list string :=
  (clause "location:" (sc_location params)
   ++ clause "category:" (sc_category params)
   ++ clause "founded_on:>=" (sc_founded_after params)
   ++ clause "founded_on:<=" (sc_founded_before params)
   ++ clause "status:" (sc_status params))%list.

Definition people_clauses (params : SearchPeopleInput) : list string :=
  (clause "featured_job_organization_name:" (sp_company params)
   ++ clause "featured_job_title:" (sp_title params))%list.

(** The requests of a list of exchanges. *)
Definition requests (done : History) : list Request := map ex_request done.

(** Any one call of an adapter operation, and its result as the router
    serialises it. *)
Inductive Operation : Type :=
| OpSearchCompanies (params : SearchCompaniesInput)
| OpGetCompanyDetails (params : GetCompanyDetailsInput)
| OpGetFundingRounds (params : GetFundingRoundsInput)
| OpGetAcquisitions (params : GetAcquisitionsInput)
| OpSearchPeople (params : SearchPeopleInput).

Definition perform (op : Operation) : Async Payload :=
  match op with
  | OpSearchCompanies params => r <- searchCompanies params ;; ret (PCompanies r)
  | OpGetCompanyDetails params => r <- getCompanyDetails params ;; ret (PCompany r)
  | OpGetFundingRounds params => r <- getFundingRounds params ;; ret (PFundingRounds r)
  | OpGetAcquisitions params => r <- getAcquisitions params ;; ret (PAcquisitions r)
  | OpSearchPeople params => r <- searchPeople params ;; ret (PPeople r)
  end.

(** The result-limit an operation was given, for those that take one. *)
Definition supplied_limit (op : Operation) : option (option number) :=
  match op with
  | OpSearchCompanies params => Some (sc_limit params)
  | OpGetCompanyDetails _ => None
  | OpGetFundingRounds params => Some (fr_limit params)
  | OpGetAcquisitions params => Some (acq_limit params)
  | OpSearchPeople params => Some (sp_limit params)
  end.

(** The error taxonomy of the adapter. *)
Inductive ErrorKind :=
| AuthenticationError | NotFoundError | RateLimitError | UpstreamError | TransportError.

(** The kind of an upstream failure, from the response it came with. *)
Definition kind_of_failure (response : option AxiosResponse) : ErrorKind :=
  match response with
  | None => TransportError
  | Some r =>
      if N.eqb (resp_status r) 401 then AuthenticationError
      else if N.eqb (resp_status r) 404 then NotFoundError
      else if N.eqb (resp_status r) 429 then RateLimitError
      else UpstreamError
  end.

(** The same value with another message text. *)
Definition with_message (text : string) (error : Thrown) : Thrown :=
  match error with
  | ErrorObj cls _ => ErrorObj cls text
  | AxiosErrorObj _ response => AxiosErrorObj text response
  | McpErrorObj code _ => McpErrorObj code text
  | NonErrorValue v => NonErrorValue v
  end.

(** An inspection of an error that does not read its message text. *)
Definition message_blind {K : Type} (inspect : Thrown -> K) : Prop :=
  forall error text, inspect (with_message text error) = inspect error.

(** Telling the kinds apart by reading the message text. *)
Definition kind_of_message (text : string) : option ErrorKind :=
  if String.eqb text "Unauthorized: Invalid API key" then Some AuthenticationError
  else if String.eqb text "Not found: The requested resource does not exist" then
    Some NotFoundError
  else if String.eqb text "Rate limit exceeded: Too many requests" then Some RateLimitError
  else if String.prefix "Crunchbase API error (undefined): " text then Some TransportError
  else if String.prefix "Crunchbase API error (" text then Some UpstreamError
  else None.

(** The argument of a tool call under a key, [undefined] when the call has
    no arguments or not this one. *)
Definition argument (request : CallToolRequest) (key : string) : option JsValue :=
  match arguments request with
  | Some args => args !! key
  | None => None
  end.

(** A URI that is neither the literal path nor an instance of one of the
    three company templates. *)
Definition unmatched (uri : string) : bool :=
  negb (String.eqb uri "crunchbase://trending/companies")
  && match match_companies "" uri with Some _ => false | None => true end
  && match match_companies "/funding" uri with Some _ => false | None => true end
  && match match_companies "/acquisitions" uri with Some _ => false | None => true end.

(** The search that resolves a company reference: the reference as the
    query, limited to one result. *)
Definition resolution_request (reference : string) : Request :=
  {| req_url := "/searches/organizations";
     req_query := Some reference;
     req_limit := Some (Number 1);
     req_order := None |}.

(** The disjunctive filter on the acquirer or the acquiree identifier. *)
Definition either_party (id : string) : string :=
  "acquirer_identifier.uuid:" ++ id ++ " OR acquiree_identifier.uuid:" ++ id.

(** The acquisitions search with a given filter: most recent announcement
    first, capped at the limit or at 10. *)
Definition acquisitions_request (query : string) (limit : option number) : Request :=
  {| req_url := "/searches/acquisitions";
     req_query := Some query;
     req_limit := Some (or_else truthy_number limit (Number 10));
     req_order := Some "announced_on DESC" |}.

End Spec.

(** ** Sample services and values, for concrete instances *)

Module Samples.
Import Js Types Http.

Definition no_results {T : Type} : CrunchbaseApiResponse (list T) :=
  {| data := []; count := Number 0; total_count := Number 0 |}.

Definition failure (status : N) (body_message : option string) : option AxiosResponse :=
  Some {| resp_status := status; resp_data_message := body_message |}.

(** A service on which every search succeeds with no result and every entity
    fetch is answered 404. *)
Definition empty_service : Upstream :=
  {| organizations_search := fun _ _ => Fulfilled no_results;
     organization_entity := fun _ _ =>
       Rejected "Request failed with status code 404" (failure 404 None);
     funding_rounds_list := fun _ _ => Fulfilled no_results;
     acquisitions_search := fun _ _ => Fulfilled no_results;
     people_search := fun _ _ => Fulfilled no_results |}.

(** A service that answers every request with the given failure. *)
Definition failing_service (message : string) (response : option AxiosResponse) : Upstream :=
  {| organizations_search := fun _ _ => Rejected message response;
     organization_entity := fun _ _ => Rejected message response;
     funding_rounds_list := fun _ _ => Rejected message response;
     acquisitions_search := fun _ _ => Rejected message response;
     people_search := fun _ _ => Rejected message response |}.

Definition acme : Company :=
  {| uuid := "c0ffee"; name := "Acme Inc"; short_description := "Anvils";
     website_url := "https://acme.example"; linkedin_url := None;
     twitter_url := None; facebook_url := None; logo_url := None;
     location_identifiers := None; categories := None; founded_on := None;
     closed_on := None; num_employees_min := None; num_employees_max := None;
     status := Some "active"; rank := None; created_at := None;
     updated_at := None |}.

(** A service that knows one company and finds it under every name. *)
Definition acme_service : Upstream :=
  {| organizations_search := fun _ _ =>
       Fulfilled {| data := [acme]; count := Number 1; total_count := Number 1 |};
     organization_entity := fun _ _ => Fulfilled acme;
     funding_rounds_list := fun _ _ => Fulfilled no_results;
     acquisitions_search := fun _ _ => Fulfilled no_results;
     people_search := fun _ _ => Fulfilled no_results |}.

End Samples.

(** ** The catalogues of [index.ts] *)

Module Catalog.
Import Js.

(** A double quote, for the descriptions that hold one. *)
Definition dq : string := String (ascii_of_nat 34) EmptyString.

Record Resource := {
  res_uri : string;
  res_name : string;
  res_mimeType : string;
  res_description : string
}.

Record ResourceTemplate := {
  rt_uriTemplate : string;
  rt_name : string;
  rt_mimeType : string;
  rt_description : string
}.

(** One entry of [properties] in an input schema. *)
Record PropertySchema := {
  ps_type : string;
  ps_description : string
}.

(** [required] is [None] where the schema leaves it out. *)
Record InputSchema := {
  schema_type : string;
  schema_properties : list (string * PropertySchema);
  schema_required : option (list string)
}.

Record Tool := {
  tl_name : string;
  tl_description : string;
  tl_inputSchema : InputSchema
}.

(** The handler registered for [ListResourcesRequestSchema]. *)
Definition ListResources : list Resource :=
  [ {| res_uri := "crunchbase://trending/companies";
       res_name := "Trending Companies";
       res_mimeType := "application/json";
       res_description := "List of trending companies on Crunchbase" |} ].

(** The handler registered for [ListResourceTemplatesRequestSchema]. *)
Definition ListResourceTemplates : list ResourceTemplate :=
  [ {| rt_uriTemplate := "crunchbase://companies/{name}";
       rt_name := "Company Details";
       rt_mimeType := "application/json";
       rt_description := "Detailed information about a specific company" |};
    {| rt_uriTemplate := "crunchbase://companies/{name}/funding";
       rt_name := "Company Funding Rounds";
       rt_mimeType := "application/json";
       rt_description := "Funding rounds for a specific company" |};
    {| rt_uriTemplate := "crunchbase://companies/{name}/acquisitions";
       rt_name := "Company Acquisitions";
       rt_mimeType := "application/json";
       rt_description := "Acquisitions made by or of a specific company" |} ].

Definition limit_property : string * PropertySchema :=
  ("limit",
   {| ps_type := "number";
      ps_description := "Maximum number of results to return (default: 10)" |}).

(** The handler registered for [ListToolsRequestSchema]. *)
Definition ListTools : list Tool :=
  [ {| tl_name := "search_companies";
       tl_description := "Search for companies based on various criteria";
       tl_inputSchema :=
         {| schema_type := "object";
            schema_properties :=
              [ ("query",
                 {| ps_type := "string";
                    ps_description := "Search query (e.g., company name, description)" |});
                ("location",
                 {| ps_type := "string";
                    ps_description :=
                      "Filter by location (e.g., " ++ dq ++ "San Francisco" ++ dq
                      ++ ", " ++ dq ++ "New York" ++ dq ++ ")" |});
                ("category",
                 {| ps_type := "string";
                    ps_description :=
                      "Filter by category (e.g., " ++ dq ++ "Artificial Intelligence" ++ dq
                      ++ ", " ++ dq ++ "Fintech" ++ dq ++ ")" |});
                ("founded_after",
                 {| ps_type := "string";
                    ps_description := "Filter by founding date (YYYY-MM-DD)" |});
                ("founded_before",
                 {| ps_type := "string";
                    ps_description := "Filter by founding date (YYYY-MM-DD)" |});
                ("status",
                 {| ps_type := "string";
                    ps_description :=
                      "Filter by company status (e.g., " ++ dq ++ "active" ++ dq
                      ++ ", " ++ dq ++ "closed" ++ dq ++ ")" |});
                limit_property ];
            schema_required := None |} |};
    {| tl_name := "get_company_details";
       tl_description := "Get detailed information about a specific company";
       tl_inputSchema :=
         {| schema_type := "object";
            schema_properties :=
              [ ("name_or_id",
                 {| ps_type := "string"; ps_description := "Company name or UUID" |}) ];
            schema_required := Some ["name_or_id"] |} |};
    {| tl_name := "get_funding_rounds";
       tl_description := "Get funding rounds for a specific company";
       tl_inputSchema :=
         {| schema_type := "object";
            schema_properties :=
              [ ("company_name_or_id",
                 {| ps_type := "string"; ps_description := "Company name or UUID" |});
                limit_property ];
            schema_required := Some ["company_name_or_id"] |} |};
    {| tl_name := "get_acquisitions";
       tl_description := "Get acquisitions made by or of a specific company";
       tl_inputSchema :=
         {| schema_type := "object";
            schema_properties :=
              [ ("company_name_or_id",
                 {| ps_type := "string"; ps_description := "Company name or UUID" |});
                limit_property ];
            schema_required := None |} |};
    {| tl_name := "search_people";
       tl_description := "Search for people based on various criteria";
       tl_inputSchema :=
         {| schema_type := "object";
            schema_properties :=
              [ ("query",
                 {| ps_type := "string";
                    ps_description := "Search query (e.g., person name)" |});
                ("company",
                 {| ps_type := "string"; ps_description := "Filter by company name" |});
                ("title",
                 {| ps_type := "string"; ps_description := "Filter by job title" |});
                limit_property ];
            schema_required := None |} |} ].

End Catalog.

(** ** Further vocabulary *)

Module Derived.
Import Js Types Http Adapter Uri Router Spec Catalog.

(** The names of the tools on offer. *)
Definition tool_names : list string := map tl_name ListTools.

(** The keys a tool declares as required. *)
Definition required_keys (tool : Tool) : list string :=
  match schema_required (tl_inputSchema tool) with
  | Some keys => keys
  | None => []
  end.

(** The [typeof] tag that a JSON-schema type name stands for. *)
Definition schema_type_tag (name : string) : TypeTag :=
  if String.eqb name "string" then TString
  else if String.eqb name "number" then TNumber
  else if String.eqb name "boolean" then TBoolean
  else TObject.

(** A string without a slash. *)
Fixpoint slash_free (s : string) : bool :=
  match s with
  | EmptyString => true
  | String c rest => negb (Ascii.eqb c "/") && slash_free rest
  end.

(** A string without a percent sign. *)
Fixpoint percent_free (s : string) : bool :=
  match s with
  | EmptyString => true
  | String c rest => negb (Ascii.eqb c "%") && percent_free rest
  end.

(** A template with its first "{name}" replaced by a value. *)
Fixpoint instantiate (template value : string) : string :=
  match template with
  | EmptyString => EmptyString
  | String c rest =>
      match strip_prefix "{name}" template with
      | Some after => value ++ after
      | None => String c (instantiate rest value)
      end
  end.

(** What the resource-read handler makes of the completion of the adapter
    operation it dispatched to. *)
Definition read_outcome {A : Type}
    (JSON_stringify : Payload -> string)
    (McpError_message : ErrorCode -> string -> string)
    (uri : string) (wrap : A -> Payload)
    (r : Completion A * History) : Completion ReadResourceResult * History :=
  match r with
  | (Return a, done) => (Return (json_contents JSON_stringify uri (wrap a)), done)
  | (Throw e, done) =>
      (Throw (McpErrorObj InternalError (message_or_unknown McpError_message e)), done)
  end.

(** The funding-rounds listing of a company. *)
Definition funding_rounds_request (company_uuid : string) (limit : option number) : Request :=
  {| req_url := "/entities/organizations/" ++ company_uuid ++ "/funding_rounds";
     req_query := None;
     req_limit := Some (or_else truthy_number limit (Number 10));
     req_order := Some "announced_on DESC" |}.

(** The fetch of an organization by identifier. *)
Definition entity_request (company_uuid : string) : Request :=
  {| req_url := "/entities/organizations/" ++ company_uuid;
     req_query := None; req_limit := None; req_order := None |}.

(** The parameters of a company search with every filter absent. *)
Definition no_company_filters (limit : option number) : SearchCompaniesInput :=
  {| sc_query := None; sc_location := None; sc_category := None;
     sc_founded_after := None; sc_founded_before := None;
     sc_status := None; sc_limit := limit |}.

End Derived.

(** ** More sample services *)

Module Scenarios.
Import Js Types Http.

(** A company record that differs from [Samples.acme] in its identifier. *)
Definition with_uuid (id : string) (c : Company) : Company :=
  {| uuid := id; name := name c; short_description := short_description c;
     website_url := website_url c; linkedin_url := linkedin_url c;
     twitter_url := twitter_url c; facebook_url := facebook_url c;
     logo_url := logo_url c; location_identifiers := location_identifiers c;
     categories := categories c; founded_on := founded_on c;
     closed_on := closed_on c; num_employees_min := num_employees_min c;
     num_employees_max := num_employees_max c; status := status c;
     rank := rank c; created_at := created_at c; updated_at := updated_at c |}.

(** A service whose search reports one result but delivers none. *)
Definition miscounting_service : Upstream :=
  {| organizations_search := fun _ _ =>
       Fulfilled {| data := []; count := Number 1; total_count := Number 1 |};
     organization_entity := fun _ _ => Fulfilled Samples.acme;
     funding_rounds_list := fun _ _ => Fulfilled Samples.no_results;
     acquisitions_search := fun _ _ => Fulfilled Samples.no_results;
     people_search := fun _ _ => Fulfilled Samples.no_results |}.

(** A service whose one company has an empty identifier. *)
Definition anonymous_service : Upstream :=
  {| organizations_search := fun _ _ =>
       Fulfilled {| data := [Samples.acme]; count := Number 1; total_count := Number 1 |};
     organization_entity := fun _ _ => Fulfilled (with_uuid "" Samples.acme);
     funding_rounds_list := fun _ _ => Fulfilled Samples.no_results;
     acquisitions_search := fun _ _ => Fulfilled Samples.no_results;
     people_search := fun _ _ => Fulfilled Samples.no_results |}.

End Scenarios.

(** ** What the handlers are expected to answer, written out *)

Module Expected.
Import Js Types Http Adapter Uri Router Spec.

(** The completion of a resource read, from the completion of the adapter
    operation of its route: on a return, one content item for the URI, of
    type application/json, whose text is the serialised result; on a throw,
    the internal-error fault with the message of what was thrown (a protocol
    fault goes through as it is). *)
Definition read_result {A : Type}
    (JSON_stringify : Payload -> string)
    (uri : string) (wrap : A -> Payload)
    (r : Completion A * History) : Completion ReadResourceResult * History :=
  match r with
  | (Return a, done) =>
      (Return {| contents :=
                   [ {| rc_uri := uri;
                        rc_mimeType := "application/json";
                        rc_text := JSON_stringify (wrap a) |} ] |},
       done)
  | (Throw (ErrorObj _ text), done) => (Throw (McpErrorObj InternalError text), done)
  | (Throw (AxiosErrorObj text _), done) => (Throw (McpErrorObj InternalError text), done)
  | (Throw (McpErrorObj code text), done) => (Throw (McpErrorObj code text), done)
  | (Throw (NonErrorValue _), done) =>
      (Throw (McpErrorObj InternalError "Unknown error"), done)
  end.

(** The adapter operation that a tool call stands for, with the parameters
    read off its arguments; [None] when the call is turned down before any
    operation (unknown tool, no arguments object, required argument absent
    or not a string). *)
Definition operation_of (request : CallToolRequest) : option Operation :=
  let name := tool_name request in
  if String.eqb name "search_companies" then
    match arguments request with
    | None => None
    | Some args =>
        Some (OpSearchCompanies
                {| sc_query := string_or_undefined (args !! "query");
                   sc_location := string_or_undefined (args !! "location");
                   sc_category := string_or_undefined (args !! "category");
                   sc_founded_after := string_or_undefined (args !! "founded_after");
                   sc_founded_before := string_or_undefined (args !! "founded_before");
                   sc_status := string_or_undefined (args !! "status");
                   sc_limit := number_or_undefined (args !! "limit") |})
    end
  else if String.eqb name "get_company_details" then
    match arguments request with
    | None => None
    | Some args =>
        match args !! "name_or_id" with
        | Some (JStr value) => Some (OpGetCompanyDetails {| name_or_id := value |})
        | _ => None
        end
    end
  else if String.eqb name "get_funding_rounds" then
    match arguments request with
    | None => None
    | Some args =>
        match args !! "company_name_or_id" with
        | Some (JStr value) =>
            Some (OpGetFundingRounds
                    {| fr_company_name_or_id := value;
                       fr_limit := number_or_undefined (args !! "limit") |})
        | _ => None
        end
    end
  else if String.eqb name "get_acquisitions" then
    match arguments request with
    | None => None
    | Some args =>
        Some (OpGetAcquisitions
                {| acq_company_name_or_id :=
                     string_or_undefined (args !! "company_name_or_id");
                   acq_limit := number_or_undefined (args !! "limit") |})
    end
  else if String.eqb name "search_people" then
    match arguments request with
    | None => None
    | Some args =>
        Some (OpSearchPeople
                {| sp_query := string_or_undefined (args !! "query");
                   sp_company := string_or_undefined (args !! "company");
                   sp_title := string_or_undefined (args !! "title");
                   sp_limit := number_or_undefined (args !! "limit") |})
    end
  else None.

(** The filter that [getAcquisitions] builds from the identifier of the
    company it resolved. *)
Definition party_filter (id : string) : string :=
  if truthy_string id then either_party id else EmptyString.

Definition acquisition_of (id announced : string) : Acquisition :=
  {| acquisition_uuid := id;
     acquirer_identifier := {| ref_uuid := "c0ffee"; ref_name := "Acme Inc" |};
     acquiree_identifier := {| ref_uuid := id; ref_name := id |};
     announced_on := announced;
     completed_on := None; price := None; price_currency_code := None;
     acquisition_type := None; acquisition_status := None;
     acquisition_terms := None;
     acquisition_created_at := announced;
     acquisition_updated_at := announced |}.

(** Three acquisitions, oldest first. *)
Definition oldest_first : list Acquisition :=
  [ acquisition_of "a1" "2020-01-01";
    acquisition_of "a2" "2021-01-01";
    acquisition_of "a3" "2022-01-01" ].

(** A service that answers every acquisitions search with the same three
    acquisitions, oldest first, whatever order and limit are asked for. *)
Definition heedless_service : Upstream :=
  {| organizations_search := fun _ _ =>
       Fulfilled {| data := [Samples.acme]; count := Number 1; total_count := Number 1 |};
     organization_entity := fun _ _ => Fulfilled Samples.acme;
     funding_rounds_list := fun _ _ => Fulfilled Samples.no_results;
     acquisitions_search := fun _ _ =>
       Fulfilled {| data := oldest_first; count := Number 3; total_count := Number 3 |};
     people_search := fun _ _ => Fulfilled Samples.no_results |}.

End Expected.

(* ================================================================== *)
(** * Part II: properties *)
(* ================================================================== *)

Import Js Types Http Adapter Uri Router Spec.

(** ** Running [Async] computations *)

Lemma run_ret {A : Type} (a : A) up past : run (ret a) up past = (Return a, []).
Proof. reflexivity. Qed.

Lemma run_throw {A : Type} (e : Thrown) up past :
  run (throw e : Async A) up past = (Throw e, []).
Proof. reflexivity. Qed.

Lemma run_bind_return {A B : Type} (m : Async A) (k : A -> Async B) up past a done :
  run m up past = (Return a, done) ->
  run (bind m k) up past
  = (fst (run (k a) up (past ++ done)%list),
     (done ++ snd (run (k a) up (past ++ done)%list))%list).
Proof.
  unfold run, bind. intros ->. destruct (k a up (past ++ done)%list). reflexivity.
Qed.

Lemma run_bind_throw {A B : Type} (m : Async A) (k : A -> Async B) up past e done :
  run m up past = (Throw e, done) ->
  run (bind m k) up past = (Throw e, done).
Proof. unfold run, bind. intros ->. reflexivity. Qed.

Lemma run_try_return {A : Type} (m : Async A) handler up past a done :
  run m up past = (Return a, done) ->
  run (try_catch m handler) up past = (Return a, done).
Proof. unfold run, try_catch. intros ->. reflexivity. Qed.

Lemma run_try_throw {A : Type} (m : Async A) handler up past e done :
  run m up past = (Throw e, done) ->
  run (try_catch m handler) up past
  = (fst (run (handler e) up (past ++ done)%list),
     (done ++ snd (run (handler e) up (past ++ done)%list))%list).
Proof.
  unfold run, try_catch. intros ->. destruct (handler e up (past ++ done)%list). reflexivity.
Qed.

Lemma run_bind_ret {A B : Type} (a : A) (k : A -> Async B) up past :
  run (bind (ret a) k) up past = run (k a) up past.
Proof.
  unfold run, bind, ret. rewrite app_nil_r. destruct (k a up past). reflexivity.
Qed.

Lemma run_bind_ret_throw {A B : Type} (m : Async A) (f : A -> B) up past e done :
  run (bind m (fun x => ret (f x))) up past = (Throw e, done) ->
  run m up past = (Throw e, done).
Proof.
  destruct (run m up past) as [[a|e'] done'] eqn:Hm.
  - rewrite (run_bind_return _ _ _ _ _ _ Hm). discriminate.
  - rewrite (run_bind_throw _ _ _ _ _ _ Hm). intros [= -> ->]. reflexivity.
Qed.

Lemma run_bind_ret_exchanges {A B : Type} (m : Async A) (f : A -> B) up past :
  snd (run (bind m (fun x => ret (f x))) up past) = snd (run m up past).
Proof.
  destruct (run m up past) as [[a|e] done] eqn:Hm.
  - rewrite (run_bind_return _ _ _ _ _ _ Hm). cbn. now rewrite app_nil_r.
  - now rewrite (run_bind_throw _ _ _ _ _ _ Hm).
Qed.

(** ** [handleError] *)

(** A handled error is a plain [Error]; handling it again changes nothing. *)
Lemma handleError_plain cls message :
  handleError (ErrorObj cls message) = ErrorObj cls message.
Proof. reflexivity. Qed.

Lemma handleError_axios_is_plain message response :
  exists text, handleError (AxiosErrorObj message response) = ErrorObj ClsError text.
Proof.
  unfold handleError.
  repeat match goal with |- context [if ?b then _ else _] => destruct b end; eauto.
Qed.

Lemma handleError_idempotent_on_axios message response :
  handleError (handleError (AxiosErrorObj message response))
  = handleError (AxiosErrorObj message response).
Proof.
  destruct (handleError_axios_is_plain message response) as [text ->]. reflexivity.
Qed.

(** ** Query construction *)

Lemma append_assoc (s1 s2 s3 : string) : (s1 ++ s2) ++ s3 = s1 ++ (s2 ++ s3).
Proof.
  induction s1 as [|c s1 IH]; [reflexivity|].
  change (String c ((s1 ++ s2) ++ s3) = String c (s1 ++ (s2 ++ s3))).
  now rewrite IH.
Qed.

Lemma add_filter_clause query field value :
  add_filter query (" AND " ++ field) value
  = fold_left (fun q c => q ++ " AND " ++ c) (clause field value) query.
Proof.
  unfold add_filter, clause. destruct value as [v|]; [|reflexivity].
  destruct (truthy_string v); [|reflexivity].
  simpl. now rewrite !append_assoc.
Qed.

Lemma or_else_empty_free_text (q : option string) :
  or_else truthy_string q "" = match q with Some s => s | None => "" end.
Proof. destruct q as [[|c s]|]; reflexivity. Qed.

Lemma searchCompanies_query_conjoin params :
  searchCompanies_query params = conjoin (sc_query params) (company_clauses params).
Proof.
  unfold searchCompanies_query, conjoin, company_clauses.
  rewrite !fold_left_app, or_else_empty_free_text.
  now rewrite <- !add_filter_clause.
Qed.

Lemma searchPeople_query_conjoin params :
  searchPeople_query params = conjoin (sp_query params) (people_clauses params).
Proof.
  unfold searchPeople_query, conjoin, people_clauses.
  rewrite !fold_left_app, or_else_empty_free_text.
  now rewrite <- !add_filter_clause.
Qed.

(** Each search operation performs exactly one exchange, whatever the
    service answers. *)
Lemma searchCompanies_requests params up past :
  requests (snd (run (searchCompanies params) up past))
  = [ {| req_url := "/searches/organizations";
         req_query := Some (searchCompanies_query params);
         req_limit := Some (or_else truthy_number (sc_limit params) (Number 10));
         req_order := Some "rank DESC" |} ].
Proof.
  unfold run, searchCompanies, try_catch, bind, client_get, rethrow_handled, throw, ret.
  destruct (organizations_search up past _); reflexivity.
Qed.

Lemma searchPeople_requests params up past :
  requests (snd (run (searchPeople params) up past))
  = [ {| req_url := "/searches/people";
         req_query := Some (searchPeople_query params);
         req_limit := Some (or_else truthy_number (sp_limit params) (Number 10));
         req_order := Some "rank DESC" |} ].
Proof.
  unfold run, searchPeople, try_catch, bind, client_get, rethrow_handled, throw, ret.
  destruct (people_search up past _); reflexivity.
Qed.

(** C1. Company search and people search each emit one upstream search
    whose query is the free-text term with the [field:value] clause of every
    present, non-empty filter AND-ed onto it in the fixed field order, and
    nothing for an absent or empty filter. For the query "AI" with location
    "San Francisco" and limit 5, given to the operation or to the tool
    search_companies, the request carries the query
    "AI AND location:San Francisco", the limit 5 and the order "rank DESC". *)
Theorem search_query_conjoins_present_filters :
  (forall params up past,
     requests (snd (run (searchCompanies params) up past))
     = [ {| req_url := "/searches/organizations";
            req_query := Some (conjoin (sc_query params) (company_clauses params));
            req_limit := Some (or_else truthy_number (sc_limit params) (Number 10));
            req_order := Some "rank DESC" |} ])
  /\ (forall params up past,
     requests (snd (run (searchPeople params) up past))
     = [ {| req_url := "/searches/people";
            req_query := Some (conjoin (sp_query params) (people_clauses params));
            req_limit := Some (or_else truthy_number (sp_limit params) (Number 10));
            req_order := Some "rank DESC" |} ])
  /\ (forall up past,
     requests (snd (run (searchCompanies
       {| sc_query := Some "AI"; sc_location := Some "San Francisco";
          sc_category := None; sc_founded_after := None; sc_founded_before := None;
          sc_status := None; sc_limit := Some (Number 5) |}) up past))
     = [ {| req_url := "/searches/organizations";
            req_query := Some "AI AND location:San Francisco";
            req_limit := Some (Number 5);
            req_order := Some "rank DESC" |} ])
  /\ (forall stringify up past,
     requests (snd (run (Router.CallTool_try stringify
       {| tool_name := "search_companies";
          arguments := Some (<[ "query" := JStr "AI" ]>
                              (<[ "location" := JStr "San Francisco" ]>
                                 {[ "limit" := JNum (Number 5) ]})) |}) up past))
     = [ {| req_url := "/searches/organizations";
            req_query := Some "AI AND location:San Francisco";
            req_limit := Some (Number 5);
            req_order := Some "rank DESC" |} ]).
Proof.
  split; [|split; [|split]].
  - intros. now rewrite searchCompanies_requests, searchCompanies_query_conjoin.
  - intros. now rewrite searchPeople_requests, searchPeople_query_conjoin.
  - intros. rewrite searchCompanies_requests. reflexivity.
  - intros. unfold Router.CallTool_try.
    cbn [tool_name arguments String.eqb Ascii.eqb Bool.eqb andb]. cbv iota.
    rewrite run_bind_ret_exchanges, searchCompanies_requests. reflexivity.
Qed.

(** ** Company resolution *)

Ltac unfold_async :=
  unfold run, try_catch, bind, client_get, rethrow_handled, throw, ret in *.

(** The three ways [getCompanyDetails] can go once the resolution search has
    been answered. *)
Lemma getCompanyDetails_cases params up past :
  let search := resolution_request (name_or_id params) in
  match organizations_search up past search with
  | Rejected message response =>
      run (getCompanyDetails params) up past
      = (Throw (handleError (AxiosErrorObj message response)),
         [ {| ex_request := search;
              ex_rejection := Some (AxiosErrorObj message response) |} ])
  | Fulfilled found =>
      let searched := [ {| ex_request := search; ex_rejection := None |} ] in
      if strict_eq_number (count found) (Number 0) then
        run (getCompanyDetails params) up past
        = (Throw (ErrorObj ClsError ("Company not found: " ++ name_or_id params)), searched)
      else
        match data found with
        | [] =>
            run (getCompanyDetails params) up past
            = (Throw (ErrorObj ClsTypeError uuid_of_undefined_message), searched)
        | first :: _ =>
            let fetch :=
              {| req_url := "/entities/organizations/" ++ uuid first;
                 req_query := None; req_limit := None; req_order := None |} in
            match organization_entity up (past ++ searched)%list fetch with
            | Fulfilled company =>
                run (getCompanyDetails params) up past
                = (Return company,
                   (searched ++ [ {| ex_request := fetch; ex_rejection := None |} ])%list)
            | Rejected message response =>
                run (getCompanyDetails params) up past
                = (Throw (handleError (AxiosErrorObj message response)),
                   (searched ++ [ {| ex_request := fetch;
                                    ex_rejection := Some (AxiosErrorObj message response) |} ])%list)
            end
        end
  end.
Proof.
  unfold resolution_request, getCompanyDetails. unfold_async. cbv zeta.
  destruct (organizations_search up past _) as [found|message response]; [|reflexivity].
  destruct (strict_eq_number (count found) (Number 0)); [reflexivity|].
  destruct (data found) as [|first rest]; [reflexivity|].
  destruct (organization_entity up _ _); reflexivity.
Qed.

(** Whatever [getCompanyDetails] throws is a plain error object, which
    [handleError] leaves as it is. *)
Lemma getCompanyDetails_throws_plain params up past e done :
  run (getCompanyDetails params) up past = (Throw e, done) ->
  exists cls text, e = ErrorObj cls text.
Proof.
  intros Hrun. pose proof (getCompanyDetails_cases params up past) as Hcases.
  cbv zeta in Hcases.
  destruct (organizations_search up past _) as [found|message response].
  - destruct (strict_eq_number (count found) (Number 0)).
    + rewrite Hcases in Hrun. injection Hrun as <- _. eauto.
    + destruct (data found) as [|first rest].
      * rewrite Hcases in Hrun. injection Hrun as <- _. eauto.
      * destruct (organization_entity up _ _) as [company|message response];
          rewrite Hcases in Hrun; [discriminate|].
        destruct (handleError_axios_is_plain message response) as [text Htext].
        exists ClsError, text. congruence.
  - rewrite Hcases in Hrun.
    destruct (handleError_axios_is_plain message response) as [text Htext].
    exists ClsError, text. congruence.
Qed.

(** C3, as the code has it. When the resolution search of
    [getCompanyDetails] reports a result count of zero, the operation
    performs that one search and fails with the error "Company not found: "
    followed by the exact input string. Whenever that search reports a zero
    count or delivers an empty result list, the operation returns no
    company. *)
Theorem getCompanyDetails_zero_results_not_found :
  forall name_or_id up past found,
    organizations_search up past (resolution_request name_or_id) = Fulfilled found ->
    (strict_eq_number (count found) (Number 0) = true ->
     run (getCompanyDetails {| name_or_id := name_or_id |}) up past
     = (Throw (ErrorObj ClsError ("Company not found: " ++ name_or_id)),
        [ {| ex_request := resolution_request name_or_id; ex_rejection := None |} ]))
    /\ (strict_eq_number (count found) (Number 0) = true \/ data found = [] ->
        forall company,
          fst (run (getCompanyDetails {| name_or_id := name_or_id |}) up past)
          <> Return company).
Proof.
  intros name up past found Hsearch.
  pose proof (getCompanyDetails_cases {| name_or_id := name |} up past) as Hcases.
  cbv zeta in Hcases. simpl name_or_id in Hcases. rewrite Hsearch in Hcases.
  split.
  - intros Hzero. now rewrite Hzero in Hcases.
  - intros Hnone company.
    destruct (strict_eq_number (count found) (Number 0)).
    + rewrite Hcases. discriminate.
    + destruct Hnone as [Hzero|Hdata]; [discriminate Hzero|].
      rewrite Hdata in Hcases. rewrite Hcases. discriminate.
Qed.

Lemma getCompanyDetails_zero_results_not_found_witness :
  run (getCompanyDetails {| name_or_id := "OpenAI" |}) Samples.empty_service []
  = (Throw (ErrorObj ClsError "Company not found: OpenAI"),
     [ {| ex_request := resolution_request "OpenAI"; ex_rejection := None |} ]).
Proof.
  destruct (getCompanyDetails_zero_results_not_found
              "OpenAI" Samples.empty_service [] Samples.no_results eq_refl)
    as [Hfound _].
  exact (Hfound eq_refl).
Defined.

(** C3, as the specification states it, fails: a resolution search that
    delivers no result while reporting a count of one makes the operation
    fail with a [TypeError], not with the not-found error. *)
Lemma getCompanyDetails_empty_data_not_reported_not_found :
  (exists found,
     organizations_search Scenarios.miscounting_service [] (resolution_request "Ghost")
     = Fulfilled found
     /\ data found = [])
  /\ fst (run (getCompanyDetails {| name_or_id := "Ghost" |})
            Scenarios.miscounting_service [])
     = Throw (ErrorObj ClsTypeError uuid_of_undefined_message)
  /\ fst (run (getCompanyDetails {| name_or_id := "Ghost" |})
            Scenarios.miscounting_service [])
     <> Throw (ErrorObj ClsError "Company not found: Ghost").
Proof.
  split; [eexists; split; reflexivity|].
  split; [reflexivity|]. vm_compute. discriminate.
Qed.

(** ** Error classification across the operations *)

(** One case analysis on what decides how a run of an operation goes. *)
Ltac step_run :=
  match goal with
  | H : context [match ?f ?up ?past ?req with Fulfilled _ => _ | Rejected _ _ => _ end] |- _ =>
      destruct (f up past req) eqn:?
  | H : context [if strict_eq_number ?a ?b then _ else _] |- _ =>
      destruct (strict_eq_number a b) eqn:?
  | H : context [match data ?r with [] => _ | _ :: _ => _ end] |- _ =>
      destruct (data r) eqn:?
  | H : context [match ?o with Some _ => _ | None => _ end] |- _ =>
      destruct o eqn:?
  | H : context [if truthy_string ?s then _ else _] |- _ =>
      destruct (truthy_string s) eqn:?
  end.

Ltac unfold_operations H :=
  unfold perform, searchCompanies, getFundingRounds, getAcquisitions, searchPeople,
    getCompanyDetails in H;
  unfold_async.

(** An operation stops at the first rejected call and throws what
    [handleError] makes of the rejection. *)
Lemma perform_rejection op up past outcome done request message response :
  run (perform op) up past = (outcome, done) ->
  In {| ex_request := request;
        ex_rejection := Some (AxiosErrorObj message response) |} done ->
  outcome = Throw (handleError (AxiosErrorObj message response)).
Proof.
  intros Hrun Hin.
  destruct op; unfold_operations Hrun;
  repeat (step_run; cbn [app fst snd] in * );
  injection Hrun as <- <-; cbn [In app] in Hin;
  repeat (destruct Hin as [Hin|Hin]); try discriminate Hin; try contradiction;
  injection Hin as <- <- <-;
  rewrite ?handleError_idempotent_on_axios, ?handleError_plain; reflexivity.
Qed.

(** C4. Whichever adapter operation is running and whichever of its
    upstream calls is rejected with an HTTP status, the operation fails with
    the error fixed by that status alone: 401 gives the invalid-credential
    error, 404 the not-found error, 429 the rate-limit error, and any other
    status the generic error that carries the status code and the message of
    the upstream body (the transport's own message when the body has
    none). *)
Theorem upstream_status_maps_to_error_for_every_operation :
  forall op up past outcome done request message status body_message,
    run (perform op) up past = (outcome, done) ->
    In {| ex_request := request;
          ex_rejection :=
            Some (AxiosErrorObj message
                    (Some {| resp_status := status;
                             resp_data_message := body_message |})) |} done ->
    outcome
    = Throw (ErrorObj ClsError
        (if N.eqb status 401 then "Unauthorized: Invalid API key"
         else if N.eqb status 404 then "Not found: The requested resource does not exist"
         else if N.eqb status 429 then "Rate limit exceeded: Too many requests"
         else "Crunchbase API error (" ++ pretty status ++ "): "
              ++ or_else truthy_string body_message message)).
Proof.
  intros op up past outcome done request message status body_message Hrun Hin.
  rewrite (perform_rejection _ _ _ _ _ _ _ _ Hrun Hin).
  unfold handleError.
  cbn [option_map resp_status resp_data_message status_is status_text].
  destruct (N.eqb status 401); [reflexivity|].
  destruct (N.eqb status 404); [reflexivity|].
  destruct (N.eqb status 429); reflexivity.
Qed.

Lemma upstream_status_maps_to_error_for_every_operation_witness :
  fst (run (perform (OpGetFundingRounds
                       {| fr_company_name_or_id := "Anthropic"; fr_limit := None |}))
         (Samples.failing_service "Request failed with status code 429"
            (Samples.failure 429 (Some "slow down"))) [])
  = Throw (ErrorObj ClsError "Rate limit exceeded: Too many requests").
Proof.
  apply (upstream_status_maps_to_error_for_every_operation
           (OpGetFundingRounds {| fr_company_name_or_id := "Anthropic"; fr_limit := None |})
           (Samples.failing_service "Request failed with status code 429"
              (Samples.failure 429 (Some "slow down")))
           [] _
           [ {| ex_request := resolution_request "Anthropic";
                ex_rejection :=
                  Some (AxiosErrorObj "Request failed with status code 429"
                          (Samples.failure 429 (Some "slow down"))) |} ]
           (resolution_request "Anthropic")
           "Request failed with status code 429" 429%N (Some "slow down")).
  - reflexivity.
  - simpl. left. reflexivity.
Defined.

(** ** Telling error kinds apart *)

Lemma pretty_N_go_head x s :
  (0 < x)%N -> exists d rest, pretty_N_go x s = String d rest /\ d <> "u"%char.
Proof.
  revert s. induction (N.lt_wf_0 x) as [x _ IH]; intros s Hpos.
  rewrite pretty_N_go_step by done.
  destruct (decide (x `div` 10 = 0)%N) as [->|Hne].
  - rewrite pretty_N_go_0. do 2 eexists. split; [reflexivity|].
    unfold pretty_N_char. by repeat case_match.
  - apply IH.
    + apply N.div_lt; lia.
    + now apply N.neq_0_lt_0.
Qed.

(** The decimal text of a status starts with a digit. *)
Lemma pretty_N_head (n : N) : exists d rest, pretty n = String d rest /\ d <> "u"%char.
Proof.
  unfold pretty, pretty_N. case_decide.
  - exists "0"%char, "". split; [reflexivity | discriminate].
  - apply pretty_N_go_head. lia.
Qed.

Lemma prefix_literal (p s1 s2 : string) :
  String.prefix (p ++ s1) (p ++ s2) = String.prefix s1 s2.
Proof.
  induction p as [|c p IH]; [reflexivity|].
  change (String.prefix (String c (p ++ s1)) (String c (p ++ s2)) = String.prefix s1 s2).
  cbn [String.prefix]. destruct (ascii_dec c c); [exact IH | congruence].
Qed.

Lemma prefix_head_differs a b s1 s2 :
  a <> b -> String.prefix (String a s1) (String b s2) = false.
Proof.
  intros Hne. cbn [String.prefix].
  destruct (ascii_dec a b); [contradiction | reflexivity].
Qed.

Lemma prefix_self p s : String.prefix p (p ++ s) = true.
Proof.
  induction p as [|c p IH]; [destruct s; reflexivity|].
  change (String.prefix (String c p) (String c (p ++ s)) = true).
  cbn [String.prefix]. destruct (ascii_dec c c); [exact IH | congruence].
Qed.

Ltac fixed_messages_differ :=
  unfold kind_of_message;
  change (String.eqb _ "Unauthorized: Invalid API key") with false;
  change (String.eqb _ "Not found: The requested resource does not exist") with false;
  change (String.eqb _ "Rate limit exceeded: Too many requests") with false;
  cbv iota.

(** C2, as the code has it. What [handleError] makes of an upstream failure
    is always a plain [Error] object, so that its message text is all that
    varies; the kind of the failure (invalid credential for 401, not found
    for 404, rate limit for 429, upstream error for another status,
    transport error without a response) can be read back from that text. *)
Theorem adapter_error_kind_only_in_message :
  forall message response,
    exists text,
      handleError (AxiosErrorObj message response) = ErrorObj ClsError text
      /\ kind_of_message text = Some (kind_of_failure response).
Proof.
  intros message [[status body]|]; unfold handleError, kind_of_failure;
    cbn [option_map resp_status resp_data_message status_is status_text].
  - destruct (N.eqb status 401); [eexists; split; reflexivity|].
    destruct (N.eqb status 404); [eexists; split; reflexivity|].
    destruct (N.eqb status 429); [eexists; split; reflexivity|].
    eexists; split; [reflexivity|].
    destruct (pretty_N_head status) as (d & rest & -> & Hd).
    fixed_messages_differ.
    change "Crunchbase API error (undefined): "
      with ("Crunchbase API error (" ++ "undefined): ").
    rewrite prefix_literal.
    change (String d rest ++ ?x) with (String d (rest ++ x)).
    rewrite prefix_head_differs by congruence.
    change "Crunchbase API error (" with ("Crunchbase API error (" ++ "") at 1.
    rewrite prefix_literal. reflexivity.
  - eexists; split; [reflexivity|].
    fixed_messages_differ.
    match goal with
    | |- context [String.prefix ?p (_ ++ _ ++ _ ++ ?m)] =>
        change (String.prefix p _) with (String.prefix p (p ++ m))
    end.
    now rewrite prefix_self.
Qed.

(** C2, as the specification states it, fails: no inspection that leaves
    the message text unread can tell the error for a 401 from the error for
    a 404. *)
Lemma adapter_error_kinds_not_inspectable :
  ~ exists inspect : Thrown -> bool,
      message_blind inspect
      /\ inspect (handleError
                    (AxiosErrorObj "Request failed with status code 401"
                       (Samples.failure 401 None)))
         <> inspect (handleError
                       (AxiosErrorObj "Request failed with status code 404"
                          (Samples.failure 404 None))).
Proof.
  intros (inspect & Hblind & Hne). apply Hne.
  change (inspect (ErrorObj ClsError "Unauthorized: Invalid API key")
          = inspect (ErrorObj ClsError "Not found: The requested resource does not exist")).
  rewrite <- (Hblind (ErrorObj ClsError "Unauthorized: Invalid API key") "").
  rewrite <- (Hblind (ErrorObj ClsError "Not found: The requested resource does not exist") "").
  reflexivity.
Qed.

(** ** What the operations throw *)

Lemma perform_throws_plain op up past e done :
  run (perform op) up past = (Throw e, done) ->
  exists cls text, e = ErrorObj cls text.
Proof.
  intros Hrun.
  destruct op; unfold_operations Hrun;
  repeat (step_run; cbn [app fst snd] in * );
  try discriminate Hrun; injection Hrun as <- _;
  rewrite ?handleError_plain;
  repeat match goal with
  | |- context [handleError (AxiosErrorObj ?m ?r)] =>
      let text := fresh "text" in
      destruct (handleError_axios_is_plain m r) as [text ->]; rewrite ?handleError_plain
  end; eauto.
Qed.

(** Every operation performs at least one exchange with the service: a run
    without exchanges has entered none. *)
Lemma perform_sends_request op up past : snd (run (perform op) up past) <> [].
Proof.
  destruct (run (perform op) up past) as [outcome done] eqn:Hrun. cbn [snd].
  destruct op; unfold_operations Hrun;
  repeat (step_run; cbn [app fst snd] in * );
  injection Hrun as _ <-; discriminate.
Qed.

Lemma searchCompanies_throws_plain params up past e done :
  run (searchCompanies params) up past = (Throw e, done) ->
  exists cls text, e = ErrorObj cls text.
Proof.
  intros Hrun. apply (perform_throws_plain (OpSearchCompanies params) up past e done).
  exact (run_bind_throw _ _ _ _ _ _ Hrun).
Qed.

Lemma getFundingRounds_throws_plain params up past e done :
  run (getFundingRounds params) up past = (Throw e, done) ->
  exists cls text, e = ErrorObj cls text.
Proof.
  intros Hrun. apply (perform_throws_plain (OpGetFundingRounds params) up past e done).
  exact (run_bind_throw _ _ _ _ _ _ Hrun).
Qed.

Lemma getAcquisitions_throws_plain params up past e done :
  run (getAcquisitions params) up past = (Throw e, done) ->
  exists cls text, e = ErrorObj cls text.
Proof.
  intros Hrun. apply (perform_throws_plain (OpGetAcquisitions params) up past e done).
  exact (run_bind_throw _ _ _ _ _ _ Hrun).
Qed.

Lemma searchPeople_throws_plain params up past e done :
  run (searchPeople params) up past = (Throw e, done) ->
  exists cls text, e = ErrorObj cls text.
Proof.
  intros Hrun. apply (perform_throws_plain (OpSearchPeople params) up past e done).
  exact (run_bind_throw _ _ _ _ _ _ Hrun).
Qed.

(** ** The resource templates *)

Example decode_escaped_space : decodeURIComponent "Acme%20Inc" = Some "Acme Inc".
Proof. reflexivity. Qed.

Example decode_two_octet_sequence :
  decodeURIComponent "caf%C3%A9" = Some (String.append "caf" (string_of_octets [195; 169]%N)).
Proof. reflexivity. Qed.

Example decode_truncated_sequence : decodeURIComponent "%E0%A4%A" = None.
Proof. reflexivity. Qed.

Example decode_overlong_sequence : decodeURIComponent "%C0%AF" = None.
Proof. reflexivity. Qed.

Example decode_lone_percent : decodeURIComponent "100%" = None.
Proof. reflexivity. Qed.

Example match_funding_template :
  match_companies "/funding" "crunchbase://companies/Acme%20Inc/funding"
  = Some "Acme%20Inc".
Proof. reflexivity. Qed.

Example match_requires_a_segment : match_companies "" "crunchbase://companies/" = None.
Proof. reflexivity. Qed.

Lemma match_companies_not_trending suffix uri segment :
  match_companies suffix uri = Some segment ->
  String.eqb uri "crunchbase://trending/companies" = false.
Proof.
  intros Hmatch. destruct (String.eqb_spec uri "crunchbase://trending/companies") as [->|];
    [discriminate Hmatch | reflexivity].
Qed.

Lemma match_companies_exclusive suffix suffix' uri segment :
  match_companies suffix uri = Some segment ->
  suffix <> suffix' ->
  match_companies suffix' uri = None.
Proof.
  unfold match_companies. destruct (strip_prefix _ uri) as [rest|]; [|discriminate].
  destruct (span_segment rest) as [seg tail].
  destruct (truthy_string seg); [|discriminate]. cbn [andb].
  destruct (String.eqb_spec tail suffix) as [->|]; [|discriminate].
  intros _ Hne. destruct (String.eqb_spec suffix suffix'); [contradiction | reflexivity].
Qed.

(** ** The router *)

Section RouterProperties.

Variable JSON_stringify : Payload -> string.
Variable McpError_message : ErrorCode -> string -> string.

Local Abbreviation CallTool := (Router.CallTool JSON_stringify McpError_message).
Local Abbreviation CallTool_try := (Router.CallTool_try JSON_stringify).
Local Abbreviation ReadResource := (Router.ReadResource JSON_stringify McpError_message).
Local Abbreviation ReadResource_try := (Router.ReadResource_try JSON_stringify).
Local Abbreviation message_or_unknown := (Router.message_or_unknown McpError_message).

(** C5. A call of the tool get_company_details whose argument name_or_id
    is absent or not a string, and a call of get_funding_rounds whose
    argument company_name_or_id is absent or not a string, fail with the
    invalid-parameters error before any exchange with the upstream service:
    no adapter operation is entered. At the boundary of the handler the
    failure becomes the error result with that message. *)
Theorem required_argument_checked_before_any_call :
  forall request key up past,
    (tool_name request = "get_company_details" /\ key = "name_or_id")
    \/ (tool_name request = "get_funding_rounds" /\ key = "company_name_or_id") ->
    typeof (argument request key) <> TString ->
    run (CallTool_try request) up past
    = (Throw (McpErrorObj InvalidParams ("Missing or invalid " ++ key ++ " parameter")), [])
    /\ run (CallTool request) up past
       = (Return {| content :=
                      [ {| tc_type := "text";
                           tc_text := McpError_message InvalidParams
                                        ("Missing or invalid " ++ key ++ " parameter") |} ];
                    isError := Some true |}, []).
Proof.
  intros [name args] key up past Htool Htype.
  assert (run (CallTool_try {| tool_name := name; arguments := args |}) up past
          = (Throw (McpErrorObj InvalidParams ("Missing or invalid " ++ key ++ " parameter")), []))
    as Htry.
  { unfold argument in Htype. cbn [tool_name arguments] in *.
    destruct Htool as [[-> ->] | [-> ->]];
      unfold Router.CallTool_try, has_key; cbn [tool_name arguments];
      (destruct args as [args|]; [|reflexivity]);
      cbn -[lookup]; destruct (args !! _) as [[]|]; try reflexivity;
      exfalso; apply Htype; reflexivity. }
  split; [exact Htry|].
  unfold Router.CallTool. now rewrite (run_try_throw _ _ _ _ _ _ Htry).
Qed.

(** What the [try] block of a tool call can throw: an error of the adapter,
    an invalid-parameters error, or the unknown-tool error naming the
    tool. *)
Lemma CallTool_try_throws request up past error done :
  run (CallTool_try request) up past = (Throw error, done) ->
  (exists cls text, error = ErrorObj cls text)
  \/ (exists text, error = McpErrorObj InvalidParams text)
  \/ error = McpErrorObj MethodNotFound ("Unknown tool: " ++ tool_name request).
Proof.
  intros Htry. destruct request as [name args].
  unfold Router.CallTool_try in Htry. cbn [tool_name arguments] in *.
  repeat match type of Htry with
  | context [if String.eqb name ?lit then _ else _] => destruct (String.eqb name lit)
  end;
  try (injection Htry as <- _; right; right; reflexivity);
  (destruct args as [args|]; [|injection Htry as <- _; right; left; eauto]);
  repeat match type of Htry with
  | context [if negb (has_key ?k ?a) then _ else _] =>
      destruct (has_key k a); cbn [negb] in Htry
  | context [match string_or_undefined ?v with _ => _ end] =>
      destruct (string_or_undefined v)
  end;
  try (injection Htry as <- _; right; left; eauto);
  left; apply run_bind_ret_throw in Htry.
  - eapply searchCompanies_throws_plain, Htry.
  - eapply getCompanyDetails_throws_plain, Htry.
  - eapply getFundingRounds_throws_plain, Htry.
  - eapply getAcquisitions_throws_plain, Htry.
  - eapply searchPeople_throws_plain, Htry.
Qed.

(** C6. A tool call never completes by a throw. Whatever its [try] block
    throws is an [Error] instance: an error of the adapter, an
    invalid-parameters error or the unknown-tool error. The handler then
    returns, having performed the same exchanges, the result whose one text
    item is the message of that error and whose error flag is set. *)
Theorem tool_failures_returned_in_band :
  forall request up past,
    exists result,
      fst (run (CallTool request) up past) = Return result
      /\ snd (run (CallTool request) up past) = snd (run (CallTool_try request) up past)
      /\ forall error,
           fst (run (CallTool_try request) up past) = Throw error ->
           instanceof_Error error = true
           /\ ((exists cls text,
                  error = ErrorObj cls text
                  /\ result = {| content := [ {| tc_type := "text"; tc_text := text |} ];
                                 isError := Some true |})
               \/ (exists text,
                     error = McpErrorObj InvalidParams text
                     /\ result
                        = {| content :=
                               [ {| tc_type := "text";
                                    tc_text := McpError_message InvalidParams text |} ];
                             isError := Some true |})
               \/ (error = McpErrorObj MethodNotFound
                             ("Unknown tool: " ++ tool_name request)
                   /\ result
                      = {| content :=
                             [ {| tc_type := "text";
                                  tc_text :=
                                    McpError_message MethodNotFound
                                      ("Unknown tool: " ++ tool_name request) |} ];
                           isError := Some true |})).
Proof.
  intros request up past.
  unfold Router.CallTool.
  destruct (run (CallTool_try request) up past) as [[result|error] done] eqn:Htry.
  - rewrite (run_try_return _ _ _ _ _ _ Htry). exists result.
    split; [reflexivity|]. split; [reflexivity|]. intros error [=].
  - rewrite (run_try_throw _ _ _ _ _ _ Htry). eexists.
    cbn. rewrite app_nil_r.
    split; [reflexivity|]. split; [reflexivity|]. intros error' [= <-].
    destruct (CallTool_try_throws _ _ _ _ _ Htry)
      as [(cls & text & ->) | [(text & ->) | ->]];
      (split; [reflexivity|]); eauto 8.
Qed.

(** What the [try] block of a resource read throws for a matched URI is a
    plain error object, never a protocol fault. *)
Lemma ReadResource_try_matched_throws_plain uri up past e done :
  unmatched uri = false ->
  run (ReadResource_try uri) up past = (Throw e, done) ->
  exists cls text, e = ErrorObj cls text.
Proof.
  unfold unmatched, Router.ReadResource_try, decodeURIComponent_async.
  intros Hmatched Hrun.
  destruct (String.eqb uri "crunchbase://trending/companies").
  { apply run_bind_ret_throw in Hrun. eapply searchCompanies_throws_plain, Hrun. }
  destruct (match_companies "" uri) as [segment|].
  { destruct (decodeURIComponent segment) as [companyName|].
    - rewrite run_bind_ret in Hrun. apply run_bind_ret_throw in Hrun.
      eapply getCompanyDetails_throws_plain, Hrun.
    - injection Hrun as <- <-. eauto. }
  destruct (match_companies "/funding" uri) as [segment|].
  { destruct (decodeURIComponent segment) as [companyName|].
    - rewrite run_bind_ret in Hrun. apply run_bind_ret_throw in Hrun.
      eapply getFundingRounds_throws_plain, Hrun.
    - injection Hrun as <- <-. eauto. }
  destruct (match_companies "/acquisitions" uri) as [segment|]; [|discriminate Hmatched].
  destruct (decodeURIComponent segment) as [companyName|].
  - rewrite run_bind_ret in Hrun. apply run_bind_ret_throw in Hrun.
    eapply getAcquisitions_throws_plain, Hrun.
  - injection Hrun as <- <-. eauto.
Qed.

Lemma ReadResource_try_unmatched uri up past :
  unmatched uri = true ->
  run (ReadResource_try uri) up past
  = (Throw (McpErrorObj InvalidRequest ("Invalid URI: " ++ uri)), []).
Proof.
  unfold unmatched, Router.ReadResource_try. intros Hun.
  destruct (String.eqb uri "crunchbase://trending/companies"); [discriminate Hun|].
  destruct (match_companies "" uri); [discriminate Hun|].
  destruct (match_companies "/funding" uri); [discriminate Hun|].
  destruct (match_companies "/acquisitions" uri); [discriminate Hun|].
  reflexivity.
Qed.

(** C7. A resource read that fails completes by throwing a protocol fault
    and never returns the failure as content: for a URI that is neither the
    literal path nor an instance of a company template, the invalid-request
    fault "Invalid URI: " followed by the URI, with no exchange performed;
    for any other URI, whatever the [try] block throws is an error object
    with a message, and the read throws the internal-error fault carrying
    that message; and a read returns only what its [try] block returned. *)
Theorem resource_read_failures_are_protocol_faults :
  forall uri up past,
    (unmatched uri = true ->
       run (ReadResource uri) up past
       = (Throw (McpErrorObj InvalidRequest ("Invalid URI: " ++ uri)), []))
    /\ (unmatched uri = false ->
        forall error,
          fst (run (ReadResource_try uri) up past) = Throw error ->
          exists cls text,
            error = ErrorObj cls text
            /\ fst (run (ReadResource uri) up past)
               = Throw (McpErrorObj InternalError text))
    /\ (forall result,
          fst (run (ReadResource uri) up past) = Return result ->
          fst (run (ReadResource_try uri) up past) = Return result).
Proof.
  intros uri up past. unfold Router.ReadResource. split; [|split].
  - intros Hun. now rewrite (run_try_throw _ _ _ _ _ _ (ReadResource_try_unmatched _ _ _ Hun)).
  - intros Hmatched error Hthrow.
    destruct (run (ReadResource_try uri) up past) as [outcome done] eqn:Htry.
    cbn [fst] in Hthrow. subst outcome.
    destruct (ReadResource_try_matched_throws_plain _ _ _ _ _ Hmatched Htry)
      as (cls & text & ->).
    exists cls, text. split; [reflexivity|].
    now rewrite (run_try_throw _ _ _ _ _ _ Htry).
  - intros result.
    destruct (run (ReadResource_try uri) up past) as [[result'|error] done] eqn:Htry.
    + now rewrite (run_try_return _ _ _ _ _ _ Htry).
    + rewrite (run_try_throw _ _ _ _ _ _ Htry). cbn [fst].
      unfold ReadResource_catch. destruct (instanceof_McpError error); discriminate.
Qed.

(** C10. When the URI of a resource read is an instance of one of the
    three company templates and its name segment cannot be percent-decoded,
    the read throws the internal-error fault (not the invalid-request one)
    and performs no exchange with the upstream service, so that no adapter
    operation is entered. *)
Theorem malformed_segment_is_internal_error :
  forall uri suffix segment up past,
    suffix = "" \/ suffix = "/funding" \/ suffix = "/acquisitions" ->
    match_companies suffix uri = Some segment ->
    decodeURIComponent segment = None ->
    run (ReadResource uri) up past
    = (Throw (McpErrorObj InternalError uri_malformed_message), []).
Proof.
  intros uri suffix segment up past Hsuffix Hmatch Hdecode.
  assert (run (ReadResource_try uri) up past
          = (Throw (ErrorObj ClsURIError uri_malformed_message), [])) as Htry.
  { unfold Router.ReadResource_try.
    rewrite (match_companies_not_trending _ _ _ Hmatch).
    destruct Hsuffix as [-> | [-> | ->]].
    - rewrite Hmatch. unfold decodeURIComponent_async. now rewrite Hdecode.
    - rewrite (match_companies_exclusive _ "" _ _ Hmatch) by discriminate.
      rewrite Hmatch. unfold decodeURIComponent_async. now rewrite Hdecode.
    - rewrite (match_companies_exclusive _ "" _ _ Hmatch) by discriminate.
      rewrite (match_companies_exclusive _ "/funding" _ _ Hmatch) by discriminate.
      rewrite Hmatch. unfold decodeURIComponent_async. now rewrite Hdecode. }
  unfold Router.ReadResource. now rewrite (run_try_throw _ _ _ _ _ _ Htry).
Qed.

End RouterProperties.

Lemma required_argument_checked_before_any_call_witness :
  run (Router.CallTool_try (fun _ => "[]")
         {| tool_name := "get_company_details";
            arguments := Some {[ "name_or_id" := JNum (Number 7) ]} |})
      Samples.acme_service []
  = (Throw (McpErrorObj InvalidParams "Missing or invalid name_or_id parameter"), []).
Proof.
  apply (required_argument_checked_before_any_call
           (fun _ => "[]") (fun _ text => text)
           {| tool_name := "get_company_details";
              arguments := Some {[ "name_or_id" := JNum (Number 7) ]} |}
           "name_or_id" Samples.acme_service []).
  - left. split; reflexivity.
  - vm_compute. discriminate.
Defined.

Lemma resource_read_failures_are_protocol_faults_witness :
  run (Router.ReadResource (fun _ => "[]") (fun _ text => text) "scheme://badpath")
      Samples.acme_service []
  = (Throw (McpErrorObj InvalidRequest "Invalid URI: scheme://badpath"), [])
  /\ exists cls text,
       ErrorObj ClsError "Company not found: OpenAI" = ErrorObj cls text
       /\ fst (run (Router.ReadResource (fun _ => "[]") (fun _ text => text)
                      "crunchbase://companies/OpenAI")
                 Samples.empty_service [])
          = Throw (McpErrorObj InternalError text).
Proof.
  split.
  - apply (resource_read_failures_are_protocol_faults
             (fun _ => "[]") (fun _ text => text) "scheme://badpath"
             Samples.acme_service []).
    reflexivity.
  - destruct (resource_read_failures_are_protocol_faults
                (fun _ => "[]") (fun _ text => text) "crunchbase://companies/OpenAI"
                Samples.empty_service []) as (_ & Hmatched & _).
    exact (Hmatched eq_refl (ErrorObj ClsError "Company not found: OpenAI") eq_refl).
Defined.

Lemma malformed_segment_is_internal_error_witness :
  run (Router.ReadResource (fun _ => "[]") (fun _ text => text)
         "crunchbase://companies/%E0%A4%A/funding")
      Samples.acme_service []
  = (Throw (McpErrorObj InternalError "URI malformed"), []).
Proof.
  apply (malformed_segment_is_internal_error
           (fun _ => "[]") (fun _ text => text)
           "crunchbase://companies/%E0%A4%A/funding" "/funding" "%E0%A4%A"
           Samples.acme_service []).
  - right. left. reflexivity.
  - reflexivity.
  - reflexivity.
Defined.

(** ** Limits and the acquisitions filter *)



Lemma requests_app (done more : History) :
  requests (done ++ more)%list = (requests done ++ requests more)%list.
Proof. apply map_app. Qed.

(** C8, as the code has it. A call of [getAcquisitions] without a company
    reference (none, or the empty string) performs the one acquisitions
    search with the empty filter. With a non-empty reference, the company is
    resolved first: when the resolution yields a company, its exchanges are
    followed by the one acquisitions search, whose filter matches the
    acquirer identifier or the acquiree identifier against the identifier of
    that company (and is empty when that identifier is empty); when the
    resolution fails, so does the call, with the same error and without any
    acquisitions search. In every search the order asked for is by
    descending announcement date and the limit is the one given (10 when it
    is absent or falsy), and the results returned are the list the service
    answers with, as it is. *)
Theorem getAcquisitions_filters_by_either_party :
  forall params up past,
    (truthy_opt truthy_string (acq_company_name_or_id params) = false ->
       requests (snd (run (getAcquisitions params) up past))
       = [ acquisitions_request "" (acq_limit params) ]
       /\ forall listing,
            acquisitions_search up past (acquisitions_request "" (acq_limit params))
            = Fulfilled listing ->
            fst (run (getAcquisitions params) up past) = Return (data listing))
    /\ (forall reference,
          acq_company_name_or_id params = Some reference ->
          truthy_string reference = true ->
          (forall company resolved,
             run (getCompanyDetails {| name_or_id := reference |}) up past
             = (Return company, resolved) ->
             requests (snd (run (getAcquisitions params) up past))
             = (requests resolved
                ++ [ acquisitions_request
                       (Expected.party_filter (uuid company)) (acq_limit params) ])%list
             /\ forall listing,
                  acquisitions_search up (past ++ resolved)%list
                    (acquisitions_request
                       (Expected.party_filter (uuid company)) (acq_limit params))
                  = Fulfilled listing ->
                  fst (run (getAcquisitions params) up past) = Return (data listing))
          /\ (forall error resolved,
                run (getCompanyDetails {| name_or_id := reference |}) up past
                = (Throw error, resolved) ->
                run (getAcquisitions params) up past = (Throw error, resolved))).
Proof.
  intros params up past. split.
  - intros Hnone. unfold getAcquisitions, acquisitions_request. unfold_async.
    destruct (acq_company_name_or_id params) as [reference|]; cbn in Hnone;
      [rewrite Hnone|]; cbn [app]; rewrite ?app_nil_r;
      destruct (acquisitions_search up _ _) as [listing|message response];
      cbn [fst snd app]; (split; [reflexivity|]); intros listing' [=]; subst;
      reflexivity.
  - intros reference Href Hgiven. split.
    + intros company resolved Hres.
      unfold getAcquisitions, acquisitions_request, Expected.party_filter, either_party.
      rewrite Href, Hgiven. unfold run in Hres. unfold_async. rewrite Hres.
      cbn [app]. rewrite !app_nil_r.
      destruct (acquisitions_search up _ _) as [listing|message response];
        cbn [fst snd app]; rewrite ?app_nil_r, requests_app;
        (split; [reflexivity|]); intros listing' [=]; subst; reflexivity.
    + intros error resolved Hres.
      destruct (getCompanyDetails_throws_plain _ _ _ _ _ Hres) as (cls & text & ->).
      unfold getAcquisitions. rewrite Href, Hgiven.
      unfold run in Hres. unfold_async. rewrite Hres. cbn [app].
      now rewrite !app_nil_r.
Qed.

Lemma getAcquisitions_filters_by_either_party_witness :
  requests (snd (run (getAcquisitions
                        {| acq_company_name_or_id := Some "Acme"; acq_limit := None |})
                   Samples.acme_service []))
  = [ resolution_request "Acme";
      {| req_url := "/entities/organizations/c0ffee";
         req_query := None; req_limit := None; req_order := None |};
      {| req_url := "/searches/acquisitions";
         req_query :=
           Some "acquirer_identifier.uuid:c0ffee OR acquiree_identifier.uuid:c0ffee";
         req_limit := Some (Number 10);
         req_order := Some "announced_on DESC" |} ]
  /\ fst (run (getAcquisitions
                 {| acq_company_name_or_id := Some "Acme"; acq_limit := None |})
            Samples.acme_service [])
     = Return [].
Proof.
  destruct (getAcquisitions_filters_by_either_party
              {| acq_company_name_or_id := Some "Acme"; acq_limit := None |}
              Samples.acme_service []) as [_ Hgiven].
  destruct (Hgiven "Acme" eq_refl eq_refl) as [Hresolved _].
  destruct (Hresolved Samples.acme _ eq_refl) as [Hrequests Hreturned].
  split; [exact Hrequests|].
  exact (Hreturned Samples.no_results eq_refl).
Defined.

(** C8, as the specification states it, fails in three ways. A reference
    that is given but empty is not resolved, although the service would
    resolve it, and the search goes out with the empty filter. A company
    resolved with an empty identifier leaves the filter empty as well. And
    the results are what the service answers: asked for one result by
    descending announcement date, a service that answers with three, oldest
    first, has all three returned in that order. *)
Lemma getAcquisitions_empty_reference_not_resolved :
  (acq_company_name_or_id {| acq_company_name_or_id := Some ""; acq_limit := None |} <> None
   /\ fst (run (getCompanyDetails {| name_or_id := "" |}) Samples.acme_service [])
      = Return Samples.acme
   /\ requests (snd (run (getAcquisitions
                            {| acq_company_name_or_id := Some ""; acq_limit := None |})
                       Samples.acme_service []))
      = [ acquisitions_request "" None ]
   /\ requests (snd (run (getAcquisitions
                            {| acq_company_name_or_id := Some ""; acq_limit := None |})
                       Samples.acme_service []))
      <> (requests (snd (run (getCompanyDetails {| name_or_id := "" |})
                          Samples.acme_service []))
          ++ [ acquisitions_request (either_party (uuid Samples.acme)) None ])%list)
  /\ (fst (run (getCompanyDetails {| name_or_id := "Acme" |})
             Scenarios.anonymous_service [])
      = Return (Scenarios.with_uuid "" Samples.acme)
      /\ requests (snd (run (getAcquisitions
                               {| acq_company_name_or_id := Some "Acme";
                                  acq_limit := None |})
                          Scenarios.anonymous_service []))
         = [ resolution_request "Acme";
             {| req_url := "/entities/organizations/c0ffee";
                req_query := None; req_limit := None; req_order := None |};
             acquisitions_request "" None ])
  /\ (requests (snd (run (getAcquisitions
                            {| acq_company_name_or_id := None;
                               acq_limit := Some (Number 1) |})
                       Expected.heedless_service []))
      = [ {| req_url := "/searches/acquisitions";
             req_query := Some "";
             req_limit := Some (Number 1);
             req_order := Some "announced_on DESC" |} ]
      /\ fst (run (getAcquisitions
                     {| acq_company_name_or_id := None; acq_limit := Some (Number 1) |})
                Expected.heedless_service [])
         = Return [ Expected.acquisition_of "a1" "2020-01-01";
                    Expected.acquisition_of "a2" "2021-01-01";
                    Expected.acquisition_of "a3" "2022-01-01" ]).
Proof.
  split; [|split].
  - split; [discriminate|]. split; [reflexivity|]. split; [reflexivity|].
    vm_compute. discriminate.
  - split; reflexivity.
  - split; reflexivity.
Qed.



(* ================================================================== *)
(** * Part III: further properties of the code *)
(* ================================================================== *)

Import Catalog Derived.

(** ** The adapter *)

(** X1. Whenever [getCompanyDetails] returns a company, it has performed
    exactly two exchanges, neither rejected: the resolution search for the
    reference, answered with at least one hit, and then the fetch of the
    first hit by its identifier; the company returned is the answer to that
    fetch. *)
Theorem getCompanyDetails_returns_after_search_and_fetch :
  forall params up past company done,
    run (getCompanyDetails params) up past = (Return company, done) ->
    exists found first others,
      let searched :=
        [ {| ex_request := resolution_request (name_or_id params);
             ex_rejection := None |} ] in
      organizations_search up past (resolution_request (name_or_id params))
      = Fulfilled found
      /\ data found = first :: others
      /\ organization_entity up (past ++ searched)%list (entity_request (uuid first))
         = Fulfilled company
      /\ done = (searched
                 ++ [ {| ex_request := entity_request (uuid first);
                         ex_rejection := None |} ])%list.
Proof.
  intros params up past company done Hrun.
  pose proof (getCompanyDetails_cases params up past) as Hcases. cbv zeta in Hcases.
  destruct (organizations_search up past _) as [found|message response] eqn:Hsearch;
    [|rewrite Hcases in Hrun; discriminate Hrun].
  destruct (strict_eq_number (count found) (Number 0));
    [rewrite Hcases in Hrun; discriminate Hrun|].
  destruct (data found) as [|first others] eqn:Hdata;
    [rewrite Hcases in Hrun; discriminate Hrun|].
  destruct (organization_entity up _ _) as [fetched|message response] eqn:Hfetch;
    rewrite Hcases in Hrun; [|discriminate Hrun].
  injection Hrun as <- <-. exists found, first, others. cbv zeta.
  repeat split; try reflexivity; assumption.
Qed.

Lemma getCompanyDetails_returns_after_search_and_fetch_witness :
  exists found first others,
    organizations_search Samples.acme_service [] (resolution_request "Acme")
    = Fulfilled found
    /\ data found = first :: others
    /\ organization_entity Samples.acme_service
         ([] ++ [ {| ex_request := resolution_request "Acme"; ex_rejection := None |} ])%list
         (entity_request (uuid first))
       = Fulfilled Samples.acme
    /\ [ {| ex_request := resolution_request "Acme"; ex_rejection := None |};
         {| ex_request := entity_request "c0ffee"; ex_rejection := None |} ]
       = ([ {| ex_request := resolution_request "Acme"; ex_rejection := None |} ]
          ++ [ {| ex_request := entity_request (uuid first); ex_rejection := None |} ])%list.
Proof.
  exact (getCompanyDetails_returns_after_search_and_fetch
           {| name_or_id := "Acme" |} Samples.acme_service [] Samples.acme _ eq_refl).
Defined.

(** X2. When the resolution search reports a count other than zero but
    delivers no result, [getCompanyDetails] fails with a [TypeError] (from
    reading the identifier of a missing first result), not with the
    not-found error, and performs no fetch. *)
Theorem getCompanyDetails_count_without_data_is_type_error :
  forall params up past found,
    organizations_search up past (resolution_request (name_or_id params)) = Fulfilled found ->
    strict_eq_number (count found) (Number 0) = false ->
    data found = [] ->
    run (getCompanyDetails params) up past
    = (Throw (ErrorObj ClsTypeError uuid_of_undefined_message),
       [ {| ex_request := resolution_request (name_or_id params); ex_rejection := None |} ]).
Proof.
  intros params up past found Hsearch Hcount Hdata.
  pose proof (getCompanyDetails_cases params up past) as Hcases. cbv zeta in Hcases.
  now rewrite Hsearch, Hcount, Hdata in Hcases.
Qed.

Lemma getCompanyDetails_count_without_data_is_type_error_witness :
  run (getCompanyDetails {| name_or_id := "Ghost" |}) Scenarios.miscounting_service []
  = (Throw (ErrorObj ClsTypeError uuid_of_undefined_message),
     [ {| ex_request := resolution_request "Ghost"; ex_rejection := None |} ]).
Proof.
  apply (getCompanyDetails_count_without_data_is_type_error
           {| name_or_id := "Ghost" |} Scenarios.miscounting_service []
           {| data := []; count := Number 1; total_count := Number 1 |});
    reflexivity.
Defined.

(** X3. [getFundingRounds] resolves the company first. When the resolution
    returns a company, its exchanges are followed by exactly one more, the
    funding-rounds listing of that company's identifier (as the fetch gave
    it) by descending announcement date, and the data of a fulfilled listing
    is returned as it is. When the resolution throws, the operation throws
    the same error after the same exchanges and lists nothing. *)
Theorem getFundingRounds_resolves_then_lists :
  forall params up past,
    (forall company resolved,
       run (getCompanyDetails {| name_or_id := fr_company_name_or_id params |}) up past
       = (Return company, resolved) ->
       requests (snd (run (getFundingRounds params) up past))
       = (requests resolved
          ++ [ funding_rounds_request (uuid company) (fr_limit params) ])%list
       /\ forall listing,
            funding_rounds_list up (past ++ resolved)%list
              (funding_rounds_request (uuid company) (fr_limit params))
            = Fulfilled listing ->
            fst (run (getFundingRounds params) up past) = Return (data listing))
    /\ (forall error resolved,
          run (getCompanyDetails {| name_or_id := fr_company_name_or_id params |}) up past
          = (Throw error, resolved) ->
          run (getFundingRounds params) up past = (Throw error, resolved)).
Proof.
  intros params up past. split.
  - intros company resolved Hres.
    unfold getFundingRounds, funding_rounds_request.
    unfold run in Hres. unfold_async. rewrite Hres.
    destruct (funding_rounds_list up _ _) as [listing|message response] eqn:Hlist;
      cbn [fst snd app]; rewrite ?app_nil_r, requests_app.
    + split; [reflexivity|]. intros listing' [= <-]. reflexivity.
    + split; [reflexivity|]. intros listing' [=].
  - intros error resolved Hres.
    destruct (getCompanyDetails_throws_plain _ _ _ _ _ Hres) as (cls & text & ->).
    unfold getFundingRounds. unfold run in Hres. unfold_async. rewrite Hres.
    cbn [app]. now rewrite !app_nil_r.
Qed.

Lemma getFundingRounds_resolves_then_lists_witness :
  requests (snd (run (getFundingRounds
                        {| fr_company_name_or_id := "Acme"; fr_limit := Some (Number 3) |})
                   Samples.acme_service []))
  = [ resolution_request "Acme";
      entity_request "c0ffee";
      {| req_url := "/entities/organizations/c0ffee/funding_rounds";
         req_query := None;
         req_limit := Some (Number 3);
         req_order := Some "announced_on DESC" |} ].
Proof.
  destruct (getFundingRounds_resolves_then_lists
              {| fr_company_name_or_id := "Acme"; fr_limit := Some (Number 3) |}
              Samples.acme_service []) as [Hreturned _].
  destruct (Hreturned Samples.acme _ eq_refl) as [Hrequests _].
  exact Hrequests.
Defined.

(** X4. No operation retries or goes on after a failure: it performs
    between one and three exchanges, only the last of them can be a rejected
    one, and an operation that returns has had none rejected. *)
Theorem operations_stop_at_first_rejection :
  forall op up past,
    let done := snd (run (perform op) up past) in
    1 <= length done <= 3
    /\ (forall ex, In ex (removelast done) -> ex_rejection ex = None)
    /\ (forall v, fst (run (perform op) up past) = Return v ->
          forall ex, In ex done -> ex_rejection ex = None).
Proof.
  intros op up past done. subst done.
  destruct (run (perform op) up past) as [outcome done] eqn:Hrun. cbn [fst snd].
  destruct op; unfold_operations Hrun;
  repeat (step_run; cbn [app fst snd] in * );
  injection Hrun as <- <-;
  (split; [cbn; lia|]);
  (split;
   [ intros ex Hin; cbn in Hin | intros v Hv ex Hin; try discriminate Hv; cbn in Hin ];
   repeat (destruct Hin as [Hin|Hin]); try contradiction; subst ex; reflexivity).
Qed.

(** X5. A call that fails without any HTTP response (a connection error)
    makes whichever operation issued it fail with the generic error whose
    status reads "undefined" and whose text is the transport's message. *)
Theorem transport_failure_reported_with_undefined_status :
  forall op up past outcome done request message,
    run (perform op) up past = (outcome, done) ->
    In {| ex_request := request;
          ex_rejection := Some (AxiosErrorObj message None) |} done ->
    outcome
    = Throw (ErrorObj ClsError ("Crunchbase API error (undefined): " ++ message)).
Proof.
  intros op up past outcome done request message Hrun Hin.
  rewrite (perform_rejection _ _ _ _ _ _ _ _ Hrun Hin).
  unfold handleError. cbn [option_map status_is status_text or_else].
  reflexivity.
Qed.

Lemma transport_failure_reported_with_undefined_status_witness :
  fst (run (perform (OpSearchCompanies (no_company_filters None)))
         (Samples.failing_service "connect ECONNREFUSED" None) [])
  = Throw (ErrorObj ClsError "Crunchbase API error (undefined): connect ECONNREFUSED").
Proof.
  apply (transport_failure_reported_with_undefined_status
           (OpSearchCompanies (no_company_filters None))
           (Samples.failing_service "connect ECONNREFUSED" None) [] _
           [ {| ex_request :=
                  {| req_url := "/searches/organizations";
                     req_query := Some "";
                     req_limit := Some (Number 10);
                     req_order := Some "rank DESC" |};
                ex_rejection := Some (AxiosErrorObj "connect ECONNREFUSED" None) |} ]
           {| req_url := "/searches/organizations";
              req_query := Some "";
              req_limit := Some (Number 10);
              req_order := Some "rank DESC" |}
           "connect ECONNREFUSED").
  - reflexivity.
  - left. reflexivity.
Defined.

(** X6. [handleError] always yields an [Error] instance and is idempotent:
    an error that has been handled once (as happens to a resolution error
    caught again by the calling operation) is not changed by a second
    handling. *)
Theorem handleError_idempotent :
  forall error,
    instanceof_Error (handleError error) = true
    /\ handleError (handleError error) = handleError error.
Proof.
  intros [cls text|message response|code text|v].
  - split; reflexivity.
  - destruct (handleError_axios_is_plain message response) as [text ->].
    split; reflexivity.
  - split; reflexivity.
  - split; reflexivity.
Qed.

(** X7. Whatever an adapter operation throws is an [Error] or a
    [TypeError] object carrying a message only: the axios error, with the
    response it holds, never leaves the adapter. *)
Theorem operations_throw_message_only_errors :
  forall op up past error done,
    run (perform op) up past = (Throw error, done) ->
    exists text, error = ErrorObj ClsError text \/ error = ErrorObj ClsTypeError text.
Proof.
  intros op up past error done Hrun.
  destruct op; unfold_operations Hrun;
  repeat (step_run; cbn [app fst snd] in * );
  try discriminate Hrun; injection Hrun as <- _;
  rewrite ?handleError_plain;
  repeat match goal with
  | |- context [handleError (AxiosErrorObj ?m ?r)] =>
      let text := fresh "text" in
      destruct (handleError_axios_is_plain m r) as [text ->]; rewrite ?handleError_plain
  end; eauto.
Qed.

Lemma operations_throw_message_only_errors_witness :
  exists text,
    ErrorObj ClsTypeError uuid_of_undefined_message = ErrorObj ClsError text
    \/ ErrorObj ClsTypeError uuid_of_undefined_message = ErrorObj ClsTypeError text.
Proof.
  exact (operations_throw_message_only_errors
           (OpGetCompanyDetails {| name_or_id := "Ghost" |})
           Scenarios.miscounting_service [] _ _ eq_refl).
Defined.

(** ** More on the adapter *)

(** X8. Filter values go into the query as they are, without quoting or
    escaping: a location that itself ends in an AND-ed category clause makes
    the company search send the very query that the location and the
    category given apart would. *)
Theorem filter_values_are_not_escaped :
  forall query location category after before status limit,
    location <> "" ->
    category <> "" ->
    searchCompanies_query
      {| sc_query := query;
         sc_location := Some (location ++ " AND category:" ++ category);
         sc_category := None;
         sc_founded_after := after; sc_founded_before := before;
         sc_status := status; sc_limit := limit |}
    = searchCompanies_query
        {| sc_query := query;
           sc_location := Some location;
           sc_category := Some category;
           sc_founded_after := after; sc_founded_before := before;
           sc_status := status; sc_limit := limit |}.
Proof.
  intros query location category after before status limit Hloc Hcat.
  unfold searchCompanies_query.
  cbn [sc_query sc_location sc_category sc_founded_after sc_founded_before sc_status].
  f_equal. f_equal. f_equal.
  unfold add_filter.
  destruct location as [|c location]; [contradiction|].
  destruct category as [|d category]; [contradiction|].
  change (truthy_string (String c location ++ _)) with true.
  cbn [truthy_string]. now rewrite !append_assoc.
Qed.

Lemma filter_values_are_not_escaped_witness :
  searchCompanies_query
    {| sc_query := Some "AI";
       sc_location := Some ("Paris" ++ " AND category:" ++ "Fintech");
       sc_category := None;
       sc_founded_after := None; sc_founded_before := None;
       sc_status := None; sc_limit := None |}
  = searchCompanies_query
      {| sc_query := Some "AI";
         sc_location := Some "Paris";
         sc_category := Some "Fintech";
         sc_founded_after := None; sc_founded_before := None;
         sc_status := None; sc_limit := None |}.
Proof.
  apply (filter_values_are_not_escaped (Some "AI") "Paris" "Fintech" None None None None);
    discriminate.
Defined.

(** X9. When the company that [getAcquisitions] resolved has an empty
    identifier, the acquisitions search goes out with the empty filter, as
    if no company had been asked for. *)
Theorem getAcquisitions_empty_identifier_unfiltered :
  forall params reference up past company resolved,
    acq_company_name_or_id params = Some reference ->
    truthy_string reference = true ->
    run (getCompanyDetails {| name_or_id := reference |}) up past
    = (Return company, resolved) ->
    uuid company = "" ->
    requests (snd (run (getAcquisitions params) up past))
    = (requests resolved ++ [ acquisitions_request "" (acq_limit params) ])%list.
Proof.
  intros params reference up past company resolved Href Hgiven Hres Huuid.
  unfold getAcquisitions, acquisitions_request.
  rewrite Href, Hgiven. unfold run in Hres. unfold_async. rewrite Hres.
  cbn [app]. rewrite Huuid, !app_nil_r. cbn [truthy_string].
  destruct (acquisitions_search up _ _); cbn [snd app];
    rewrite ?app_nil_r, requests_app; reflexivity.
Qed.

Lemma getAcquisitions_empty_identifier_unfiltered_witness :
  requests (snd (run (getAcquisitions
                        {| acq_company_name_or_id := Some "Acme"; acq_limit := None |})
                   Scenarios.anonymous_service []))
  = [ resolution_request "Acme"; entity_request "c0ffee"; acquisitions_request "" None ].
Proof.
  exact (getAcquisitions_empty_identifier_unfiltered
           {| acq_company_name_or_id := Some "Acme"; acq_limit := None |}
           "Acme" Scenarios.anonymous_service []
           (Scenarios.with_uuid "" Samples.acme) _ eq_refl eq_refl eq_refl eq_refl).
Defined.

(** X10. A truthy limit is forwarded as it is, whatever its value
    (negative, fractional or infinite): every listing request of the
    operation carries exactly the limit given. *)
Theorem truthy_limit_is_forwarded :
  forall op limit up past r,
    supplied_limit op = Some (Some limit) ->
    truthy_number limit = true ->
    In r (requests (snd (run (perform op) up past))) ->
    req_order r <> None ->
    req_limit r = Some limit.
Proof.
  intros op limit up past r Hsupplied Htruthy Hin Horder.
  destruct (run (perform op) up past) as [outcome done] eqn:Hrun. cbn [snd] in Hin.
  destruct op; cbn [supplied_limit] in Hsupplied; try discriminate Hsupplied;
  injection Hsupplied as Hlimit;
  unfold_operations Hrun;
  repeat (step_run; cbn [app fst snd] in * );
  injection Hrun as <- <-; cbn [requests map In app ex_request] in Hin;
  repeat (destruct Hin as [Hin|Hin]); try contradiction; subst r;
  cbn [req_order req_limit] in *; try congruence;
  rewrite Hlimit; cbn [or_else]; now rewrite Htruthy.
Qed.

Lemma truthy_limit_is_forwarded_witness :
  req_limit {| req_url := "/searches/people";
               req_query := Some "";
               req_limit := Some (S754_infinity true);
               req_order := Some "rank DESC" |}
  = Some (S754_infinity true).
Proof.
  apply (truthy_limit_is_forwarded
           (OpSearchPeople {| sp_query := None; sp_company := None; sp_title := None;
                              sp_limit := Some (S754_infinity true) |})
           (S754_infinity true) Samples.acme_service []).
  - reflexivity.
  - reflexivity.
  - left. reflexivity.
  - discriminate.
Defined.

(** ** URIs *)

Lemma strip_prefix_append p rest : strip_prefix p (p ++ rest) = Some rest.
Proof.
  induction p as [|c p IH]; [reflexivity|].
  change (strip_prefix (String c p) (String c (p ++ rest)) = Some rest).
  cbn [strip_prefix]. now rewrite Ascii.eqb_refl.
Qed.

Lemma strip_prefix_inv p s rest : strip_prefix p s = Some rest -> s = p ++ rest.
Proof.
  revert s. induction p as [|c p IH]; intros s Hstrip.
  - now injection Hstrip as ->.
  - destruct s as [|b s]; [discriminate Hstrip|]. cbn [strip_prefix] in Hstrip.
    destruct (Ascii.eqb_spec c b) as [->|]; [|discriminate Hstrip].
    change (String b s = String b (p ++ rest)). f_equal. now apply IH.
Qed.

Lemma span_segment_inv s seg tail :
  span_segment s = (seg, tail) ->
  s = seg ++ tail /\ slash_free seg = true
  /\ (tail = "" \/ exists t, tail = String "/" t).
Proof.
  revert seg tail. induction s as [|c s IH]; intros seg tail Hspan.
  - injection Hspan as <- <-. auto.
  - cbn [span_segment] in Hspan. destruct (Ascii.eqb_spec c "/") as [->|Hc].
    + injection Hspan as <- <-. repeat split; eauto.
    + destruct (span_segment s) as [seg' tail']. injection Hspan as <- <-.
      destruct (IH seg' tail' eq_refl) as (-> & Hfree & Htail).
      repeat split; [|exact Htail].
      cbn [slash_free]. rewrite Hfree.
      destruct (Ascii.eqb_spec c "/"); [contradiction | reflexivity].
Qed.

Lemma span_segment_append seg tail :
  slash_free seg = true ->
  tail = "" \/ (exists t, tail = String "/" t) ->
  span_segment (seg ++ tail) = (seg, tail).
Proof.
  intros Hfree Htail. induction seg as [|c seg IH].
  - destruct Htail as [->|[t ->]]; reflexivity.
  - cbn [slash_free] in Hfree. apply andb_prop in Hfree as [Hc Hfree].
    change (span_segment (String c (seg ++ tail)) = (String c seg, tail)).
    cbn [span_segment]. destruct (Ascii.eqb c "/"); [discriminate Hc|].
    now rewrite (IH Hfree).
Qed.

Lemma truthy_string_nonempty s : truthy_string s = true <-> s <> "".
Proof. destruct s; cbn; split; congruence. Qed.

(** What the regular expressions of the read handler accept. *)
Lemma match_companies_iff suffix uri segment :
  suffix = "" \/ (exists t, suffix = String "/" t) ->
  match_companies suffix uri = Some segment
  <-> uri = "crunchbase://companies/" ++ segment ++ suffix
      /\ segment <> "" /\ slash_free segment = true.
Proof.
  intros Hsuffix. unfold match_companies. split.
  - destruct (strip_prefix _ uri) as [rest|] eqn:Hstrip; [|discriminate].
    apply strip_prefix_inv in Hstrip as ->.
    destruct (span_segment rest) as [seg tail] eqn:Hspan.
    apply span_segment_inv in Hspan as (-> & Hfree & _).
    destruct (truthy_string seg) eqn:Hseg; [|discriminate]. cbn [andb].
    destruct (String.eqb_spec tail suffix) as [->|]; [|discriminate].
    intros [= <-]. repeat split; [|exact Hfree].
    now apply truthy_string_nonempty.
  - intros (-> & Hseg & Hfree).
    rewrite strip_prefix_append, (span_segment_append _ _ Hfree Hsuffix).
    apply truthy_string_nonempty in Hseg. rewrite Hseg, String.eqb_refl. reflexivity.
Qed.

(** X11. The regular expression of each company template accepts exactly
    the URIs made of "crunchbase://companies/", a non-empty name segment
    without a slash, and the suffix of the template, and captures that
    segment. *)
Theorem company_template_accepts_one_segment :
  forall suffix uri segment,
    suffix = "" \/ suffix = "/funding" \/ suffix = "/acquisitions" ->
    match_companies suffix uri = Some segment
    <-> uri = "crunchbase://companies/" ++ segment ++ suffix
        /\ segment <> "" /\ slash_free segment = true.
Proof.
  intros suffix uri segment Hsuffix. apply match_companies_iff.
  destruct Hsuffix as [-> | [-> | ->]]; eauto.
Qed.

Lemma company_template_accepts_one_segment_witness :
  match_companies "/funding" "crunchbase://companies/Acme%20Inc/funding" = Some "Acme%20Inc"
  <-> "crunchbase://companies/Acme%20Inc/funding"
      = "crunchbase://companies/" ++ "Acme%20Inc" ++ "/funding"
      /\ "Acme%20Inc" <> "" /\ slash_free "Acme%20Inc" = true.
Proof.
  apply (company_template_accepts_one_segment
           "/funding" "crunchbase://companies/Acme%20Inc/funding" "Acme%20Inc").
  right. left. reflexivity.
Defined.

(** X12. A URI takes at most one route of the read handler: the literal
    path is an instance of no template, and a URI is an instance of at most
    one template, with one name segment. The order in which the handler
    tries the routes therefore never decides the outcome. *)
Theorem resource_routes_are_exclusive :
  forall uri,
    (uri = "crunchbase://trending/companies" ->
     forall suffix, match_companies suffix uri = None)
    /\ (forall suffix suffix' segment segment',
          match_companies suffix uri = Some segment ->
          match_companies suffix' uri = Some segment' ->
          suffix = suffix' /\ segment = segment').
Proof.
  intros uri. split.
  - intros -> suffix. reflexivity.
  - unfold match_companies. intros suffix suffix' segment segment'.
    destruct (strip_prefix _ uri) as [rest|]; [|discriminate].
    destruct (span_segment rest) as [seg tail].
    destruct (truthy_string seg); [|discriminate]. cbn [andb].
    destruct (String.eqb_spec tail suffix) as [<-|]; [|discriminate].
    destruct (String.eqb_spec tail suffix') as [<-|]; [|discriminate].
    intros [= <-] [= <-]. split; reflexivity.
Qed.

Lemma match_companies_instance suffix segment :
  suffix = "" \/ (exists t, suffix = String "/" t) ->
  segment <> "" ->
  slash_free segment = true ->
  match_companies suffix ("crunchbase://companies/" ++ segment ++ suffix) = Some segment.
Proof. intros Hsuffix Hseg Hfree. apply match_companies_iff; auto. Qed.

(** X13. Every resource the server lists, and every instance of a template
    it lists (the placeholder replaced by a non-empty segment without a
    slash), is a URI the read handler routes: none is turned down as an
    invalid URI. *)
Theorem listed_resources_are_routed :
  (forall resource, In resource ListResources -> unmatched (res_uri resource) = false)
  /\ (forall template segment,
        In template ListResourceTemplates ->
        segment <> "" ->
        slash_free segment = true ->
        unmatched (instantiate (rt_uriTemplate template) segment) = false).
Proof.
  split.
  - intros resource [<-|[]]. reflexivity.
  - intros template segment Hin Hseg Hfree. unfold unmatched.
    destruct Hin as [<-|[<-|[<-|[]]]]; cbn [rt_uriTemplate].
    + change (instantiate _ segment) with ("crunchbase://companies/" ++ segment ++ "").
      rewrite (match_companies_instance "" segment) by auto.
      now rewrite andb_false_r.
    + change (instantiate _ segment) with ("crunchbase://companies/" ++ segment ++ "/funding").
      rewrite (match_companies_instance "/funding" segment) by eauto.
      now rewrite andb_false_r.
    + change (instantiate _ segment)
        with ("crunchbase://companies/" ++ segment ++ "/acquisitions").
      rewrite (match_companies_instance "/acquisitions" segment) by eauto.
      now rewrite andb_false_r.
Qed.

Lemma listed_resources_are_routed_witness :
  unmatched (instantiate "crunchbase://companies/{name}/funding" "Acme%20Inc") = false.
Proof.
  destruct listed_resources_are_routed as [_ Htemplates].
  apply (Htemplates
           {| rt_uriTemplate := "crunchbase://companies/{name}/funding";
              rt_name := "Company Funding Rounds";
              rt_mimeType := "application/json";
              rt_description := "Funding rounds for a specific company" |}
           "Acme%20Inc").
  - right. left. reflexivity.
  - discriminate.
  - reflexivity.
Defined.

(** X14. [decodeURIComponent] leaves a string without a percent sign as it
    is: such a name segment reaches the adapter unchanged. *)
Theorem decodeURIComponent_without_escape :
  forall s, percent_free s = true -> decodeURIComponent s = Some s.
Proof.
  unfold decodeURIComponent. induction s as [|c s IH]; intros Hfree; [reflexivity|].
  cbn [percent_free] in Hfree. apply andb_prop in Hfree as [Hc Hfree].
  cbn [Decode]. destruct (Ascii.eqb c "%"); [discriminate Hc|].
  now rewrite (IH Hfree).
Qed.

Lemma decodeURIComponent_without_escape_witness :
  decodeURIComponent "OpenAI" = Some "OpenAI".
Proof. apply (decodeURIComponent_without_escape "OpenAI"). reflexivity. Defined.

Lemma Decode_dangling_percent (n : nat) :
  forall s t octets need,
    String.length s <= n ->
    t = "%" \/ (exists c, t = String "%" (String c "")) ->
    Decode (s ++ t) octets need = None.
Proof.
  induction n as [|n IH]; intros s t octets need Hlen Ht.
  - destruct s; [|cbn in Hlen; lia].
    change ("" ++ t) with t. destruct Ht as [-> | [c ->]]; reflexivity.
  - destruct s as [|a s].
    { change ("" ++ t) with t. destruct Ht as [-> | [c ->]]; reflexivity. }
    change (String a s ++ t) with (String a (s ++ t)). cbn [Decode].
    cbn [String.length] in Hlen.
    destruct (Ascii.eqb a "%").
    + destruct s as [|h1 s].
      { change ("" ++ t) with t. destruct Ht as [-> | [c ->]]; reflexivity. }
      destruct s as [|h2 s].
      { change (String h1 "" ++ t) with (String h1 t).
        destruct Ht as [-> | [c ->]]; cbv beta iota; unfold escape_octet;
          destruct (hex_digit h1); reflexivity. }
      change (String h1 (String h2 s) ++ t) with (String h1 (String h2 (s ++ t))).
      cbv beta iota. cbn [String.length] in Hlen.
      destruct (escape_octet h1 h2) as [b|]; [|reflexivity].
      destruct need as [|[|need]].
      * destruct (leading_ones b) as [|[|[|[|[|k]]]]];
          rewrite ?IH by (auto; lia); reflexivity.
      * destruct (valid_utf8 _); [|reflexivity].
        rewrite IH by (auto; lia). reflexivity.
      * apply IH; [lia | exact Ht].
    + destruct need; [|reflexivity]. rewrite IH by (auto; lia). reflexivity.
Qed.

(** X15. A name segment that ends in a percent sign, or in a percent sign
    and a single further character, cannot be decoded, whatever comes
    before. *)
Theorem decodeURIComponent_dangling_percent :
  forall s,
    decodeURIComponent (s ++ "%") = None
    /\ forall c, decodeURIComponent (s ++ String "%" (String c "")) = None.
Proof.
  intros s. unfold decodeURIComponent. split; [|intros c];
    apply (Decode_dangling_percent (String.length s)); eauto.
Qed.

(** ** More on the router *)

Lemma run_bind_ret_return {A B : Type} (m : Async A) (f : A -> B) up past b done :
  run (bind m (fun x => ret (f x))) up past = (Return b, done) ->
  exists a, run m up past = (Return a, done) /\ b = f a.
Proof.
  destruct (run m up past) as [[a|e] done'] eqn:Hm.
  - rewrite (run_bind_return _ _ _ _ _ _ Hm). cbn. rewrite app_nil_r.
    intros [= <- <-]. eauto.
  - rewrite (run_bind_throw _ _ _ _ _ _ Hm). discriminate.
Qed.

Lemma run_bind_ret_map {A B : Type} (m : Async A) (f : A -> B) up past :
  run (bind m (fun x => ret (f x))) up past
  = match run m up past with
    | (Return a, done) => (Return (f a), done)
    | (Throw e, done) => (Throw e, done)
    end.
Proof.
  destruct (run m up past) as [[a|e] done] eqn:Hm.
  - rewrite (run_bind_return _ _ _ _ _ _ Hm). cbn. now rewrite app_nil_r.
  - now rewrite (run_bind_throw _ _ _ _ _ _ Hm).
Qed.

Lemma searchCompanies_sends_request params up past :
  snd (run (searchCompanies params) up past) <> [].
Proof.
  pose proof (perform_sends_request (OpSearchCompanies params) up past) as H.
  unfold perform in H. now rewrite run_bind_ret_exchanges in H.
Qed.

Lemma getAcquisitions_sends_request params up past :
  snd (run (getAcquisitions params) up past) <> [].
Proof.
  pose proof (perform_sends_request (OpGetAcquisitions params) up past) as H.
  unfold perform in H. now rewrite run_bind_ret_exchanges in H.
Qed.

Lemma searchPeople_sends_request params up past :
  snd (run (searchPeople params) up past) <> [].
Proof.
  pose proof (perform_sends_request (OpSearchPeople params) up past) as H.
  unfold perform in H. now rewrite run_bind_ret_exchanges in H.
Qed.

Section RouterCoverage.

Variable JSON_stringify : Payload -> string.
Variable McpError_message : ErrorCode -> string -> string.

Local Abbreviation CallTool := (Router.CallTool JSON_stringify McpError_message).
Local Abbreviation CallTool_try := (Router.CallTool_try JSON_stringify).
Local Abbreviation ReadResource := (Router.ReadResource JSON_stringify McpError_message).
Local Abbreviation ReadResource_try := (Router.ReadResource_try JSON_stringify).
Local Abbreviation read_outcome := (Derived.read_outcome JSON_stringify McpError_message).
Local Abbreviation read_result := (Expected.read_result JSON_stringify).

(** How the read handler completes once its [try] block is an adapter
    operation followed by the serialisation of its result. *)
Lemma ReadResource_of_operation {A : Type} uri (op : Async A) (wrap : A -> Payload) up past :
  (forall e done, run op up past = (Throw e, done) -> exists cls text, e = ErrorObj cls text) ->
  run (ReadResource_try uri) up past
  = run (bind op (fun a => ret (json_contents JSON_stringify uri (wrap a)))) up past ->
  run (ReadResource uri) up past = read_outcome uri wrap (run op up past).
Proof.
  intros Hplain Htry. unfold Router.ReadResource.
  rewrite run_bind_ret_map in Htry.
  destruct (run op up past) as [[a|e] done] eqn:Hop; cbn [Derived.read_outcome] in *.
  - exact (run_try_return _ _ _ _ _ _ Htry).
  - destruct (Hplain e done eq_refl) as (cls & text & ->).
    rewrite (run_try_throw _ _ _ _ _ _ Htry). cbn. now rewrite app_nil_r.
Qed.

(** For an operation that throws error objects only, what the handler makes
    of its completion is the expected answer written out. *)
Lemma read_outcome_expected {A : Type} uri (wrap : A -> Payload) (r : Completion A * History) :
  (forall e done, r = (Throw e, done) -> exists cls text, e = ErrorObj cls text) ->
  read_outcome uri wrap r = read_result uri wrap r.
Proof.
  intros Hplain. destruct r as [[a|e] done]; [reflexivity|].
  destruct (Hplain e done eq_refl) as (cls & text & ->). reflexivity.
Qed.

(** X16. A read of the literal path runs the company search with no filter
    and the limit 10; a read of an instance of a company template whose
    segment decodes to a name runs the operation of that template on the
    decoded name, with no limit given ([getCompanyDetails],
    [getFundingRounds], or [getAcquisitions] for that company). In each case
    the read performs the exchanges of the operation and nothing else; it
    returns one JSON content item for the URI holding the serialised result,
    or throws the internal-error fault with the message of the operation's
    error. *)
Theorem resource_read_runs_the_operation_of_its_route :
  forall uri up past,
    (uri = "crunchbase://trending/companies" ->
     run (ReadResource uri) up past
     = read_result uri PCompanies
         (run (searchCompanies (no_company_filters (Some (Number 10)))) up past))
    /\ (forall segment name,
          decodeURIComponent segment = Some name ->
          (match_companies "" uri = Some segment ->
           run (ReadResource uri) up past
           = read_result uri PCompany
               (run (getCompanyDetails {| name_or_id := name |}) up past))
          /\ (match_companies "/funding" uri = Some segment ->
              run (ReadResource uri) up past
              = read_result uri PFundingRounds
                  (run (getFundingRounds
                          {| fr_company_name_or_id := name; fr_limit := None |}) up past))
          /\ (match_companies "/acquisitions" uri = Some segment ->
              run (ReadResource uri) up past
              = read_result uri PAcquisitions
                  (run (getAcquisitions
                          {| acq_company_name_or_id := Some name; acq_limit := None |})
                     up past))).
Proof.
  intros uri up past. split.
  - intros ->. rewrite <- read_outcome_expected.
    + apply ReadResource_of_operation.
      * intros e done. apply searchCompanies_throws_plain.
      * reflexivity.
    + intros e done. apply searchCompanies_throws_plain.
  - intros segment name Hdecode. split; [|split]; intros Hmatch.
    + rewrite <- read_outcome_expected
        by (intros e done; apply getCompanyDetails_throws_plain).
      apply ReadResource_of_operation.
      * intros e done. apply getCompanyDetails_throws_plain.
      * unfold Router.ReadResource_try.
        rewrite (match_companies_not_trending _ _ _ Hmatch), Hmatch.
        unfold decodeURIComponent_async. rewrite Hdecode. now rewrite run_bind_ret.
    + rewrite <- read_outcome_expected
        by (intros e done; apply getFundingRounds_throws_plain).
      apply ReadResource_of_operation.
      * intros e done. apply getFundingRounds_throws_plain.
      * unfold Router.ReadResource_try.
        rewrite (match_companies_not_trending _ _ _ Hmatch).
        rewrite (match_companies_exclusive _ "" _ _ Hmatch) by discriminate.
        rewrite Hmatch.
        unfold decodeURIComponent_async. rewrite Hdecode. now rewrite run_bind_ret.
    + rewrite <- read_outcome_expected
        by (intros e done; apply getAcquisitions_throws_plain).
      apply ReadResource_of_operation.
      * intros e done. apply getAcquisitions_throws_plain.
      * unfold Router.ReadResource_try.
        rewrite (match_companies_not_trending _ _ _ Hmatch).
        rewrite (match_companies_exclusive _ "" _ _ Hmatch) by discriminate.
        rewrite (match_companies_exclusive _ "/funding" _ _ Hmatch) by discriminate.
        rewrite Hmatch.
        unfold decodeURIComponent_async. rewrite Hdecode. now rewrite run_bind_ret.
Qed.

(** X17. The tools on offer and the tools served are the same: a call of a
    name that is not in the list of tools throws the unknown-tool error
    naming it, with no exchange performed, and a call of a listed name never
    throws that error. *)
Theorem listed_tools_are_the_tools_served :
  forall request up past,
    (~ In (tool_name request) tool_names ->
     run (CallTool_try request) up past
     = (Throw (McpErrorObj MethodNotFound ("Unknown tool: " ++ tool_name request)), []))
    /\ (In (tool_name request) tool_names ->
        forall error done text,
          run (CallTool_try request) up past = (Throw error, done) ->
          error <> McpErrorObj MethodNotFound text).
Proof.
  intros [name args] up past. cbn [tool_name]. split.
  - intros Hnot. unfold Router.CallTool_try. cbn [tool_name arguments].
    repeat match goal with
    | |- context [String.eqb name ?lit] =>
        destruct (String.eqb_spec name lit) as [->|_];
        [exfalso; apply Hnot; cbn; tauto|]
    end.
    reflexivity.
  - intros Hin error done text Hrun ->.
    unfold Router.CallTool_try in Hrun. cbn [tool_name arguments] in Hrun.
    cbn in Hin.
    destruct Hin as [<-|[<-|[<-|[<-|[<-|[]]]]]];
      cbn [String.eqb Ascii.eqb Bool.eqb andb] in Hrun; cbv iota in Hrun;
      (destruct args as [args|]; [|discriminate Hrun]).
    + apply run_bind_ret_throw, searchCompanies_throws_plain in Hrun.
      destruct Hrun as (cls & msg & [=]).
    + destruct (has_key _ args); [|discriminate Hrun]. cbn [negb] in Hrun.
      destruct (string_or_undefined _); [|discriminate Hrun].
      apply run_bind_ret_throw, getCompanyDetails_throws_plain in Hrun.
      destruct Hrun as (cls & msg & [=]).
    + destruct (has_key _ args); [|discriminate Hrun]. cbn [negb] in Hrun.
      destruct (string_or_undefined _); [|discriminate Hrun].
      apply run_bind_ret_throw, getFundingRounds_throws_plain in Hrun.
      destruct Hrun as (cls & msg & [=]).
    + apply run_bind_ret_throw, getAcquisitions_throws_plain in Hrun.
      destruct Hrun as (cls & msg & [=]).
    + apply run_bind_ret_throw, searchPeople_throws_plain in Hrun.
      destruct Hrun as (cls & msg & [=]).
Qed.

(** X18. Optional arguments are coerced leniently: for every tool on offer
    and every property its schema declares without requiring it, a call in
    which that argument has another type than the declared one runs exactly
    as the call without that argument. *)
Theorem mistyped_optional_argument_is_dropped :
  forall tool key schema args value up past,
    In tool ListTools ->
    In (key, schema) (schema_properties (tl_inputSchema tool)) ->
    ~ In key (required_keys tool) ->
    typeof (Some value) <> schema_type_tag (ps_type schema) ->
    run (CallTool_try {| tool_name := tl_name tool;
                         arguments := Some (<[ key := value ]> args) |}) up past
    = run (CallTool_try {| tool_name := tl_name tool;
                           arguments := Some (delete key args) |}) up past.
Proof.
  intros tool key schema args value up past Htool Hprop Hoptional Htype.
  destruct Htool as [<-|[<-|[<-|[<-|[<-|[]]]]]];
    cbn [tl_inputSchema schema_properties In] in Hprop;
    repeat (destruct Hprop as [Hprop|Hprop]); try contradiction;
    injection Hprop as <- <-;
    try (exfalso; apply Hoptional; cbn; tauto);
    cbn in Htype;
    unfold Router.CallTool_try, has_key;
    cbn [tool_name arguments tl_name String.eqb Ascii.eqb Bool.eqb andb]; cbv iota;
    rewrite ?lookup_insert_eq, ?lookup_delete_eq;
    rewrite ?lookup_insert_ne, ?lookup_delete_ne by discriminate;
    destruct value; try reflexivity; exfalso; apply Htype; reflexivity.
Qed.

(** X19. A tool whose schema requires nothing still needs an arguments
    object: called without one it throws the invalid-parameters error
    "Invalid parameters" before any exchange, while with an empty object the
    call goes through to the upstream service. *)
Theorem arguments_object_is_needed :
  forall tool up past,
    In tool ListTools ->
    required_keys tool = [] ->
    run (CallTool_try {| tool_name := tl_name tool; arguments := None |}) up past
    = (Throw (McpErrorObj InvalidParams "Invalid parameters"), [])
    /\ snd (run (CallTool_try {| tool_name := tl_name tool; arguments := Some ∅ |}) up past)
       <> [].
Proof.
  intros tool up past Htool Hrequired.
  destruct Htool as [<-|[<-|[<-|[<-|[<-|[]]]]]]; try discriminate Hrequired;
    (split; [reflexivity|]);
    unfold Router.CallTool_try;
    cbn [tool_name arguments tl_name String.eqb Ascii.eqb Bool.eqb andb]; cbv iota;
    rewrite run_bind_ret_exchanges.
  - apply searchCompanies_sends_request.
  - apply getAcquisitions_sends_request.
  - apply searchPeople_sends_request.
Qed.

(** A tool call whose [try] block returns has run the operation the call
    stands for and returns its serialised result. *)
Lemma CallTool_try_returns request up past result done :
  run (CallTool_try request) up past = (Return result, done) ->
  exists op payload,
    Expected.operation_of request = Some op
    /\ run (perform op) up past = (Return payload, done)
    /\ result = {| content := [ {| tc_type := "text"; tc_text := JSON_stringify payload |} ];
                   isError := None |}.
Proof.
  intros Htry. destruct request as [name args].
  unfold Router.CallTool_try, has_key in Htry. unfold Expected.operation_of.
  cbn [tool_name arguments] in *.
  repeat match type of Htry with
  | context [if String.eqb name ?lit then _ else _] => destruct (String.eqb name lit)
  end;
  try discriminate Htry;
  (destruct args as [args|]; [|discriminate Htry]);
  repeat match type of Htry with
  | context [match ?m !! ?k with _ => _ end] => destruct (m !! k) as [[]|]
  end;
  cbn [negb string_or_undefined] in Htry;
  try discriminate Htry;
  apply run_bind_ret_return in Htry as (a & Hop & ->);
  do 2 eexists; (split; [reflexivity|]);
  (split; [unfold perform; rewrite run_bind_ret_map, Hop; reflexivity | reflexivity]).
Qed.

(** X20. The error flag of a tool result tells failure from success: the
    result of a call carries the flag exactly when the [try] block threw;
    otherwise it is what the [try] block returned, a single text item holding
    the serialised result of the operation, without the flag. *)
Theorem error_flag_marks_exactly_the_failures :
  forall request up past,
    exists result,
      fst (run (CallTool request) up past) = Return result
      /\ ((isError result = Some true
           /\ exists error, fst (run (CallTool_try request) up past) = Throw error)
          \/ (isError result = None
              /\ fst (run (CallTool_try request) up past) = Return result
              /\ exists op payload,
                   Expected.operation_of request = Some op
                   /\ run (perform op) up past
                      = (Return payload, snd (run (CallTool request) up past))
                   /\ content result
                      = [ {| tc_type := "text"; tc_text := JSON_stringify payload |} ])).
Proof.
  intros request up past. unfold Router.CallTool.
  destruct (run (CallTool_try request) up past) as [[result|error] done] eqn:Htry.
  - rewrite (run_try_return _ _ _ _ _ _ Htry). exists result. split; [reflexivity|].
    right.
    destruct (CallTool_try_returns _ _ _ _ _ Htry) as (op & payload & Hop & Hrun & ->).
    split; [reflexivity|]. split; [reflexivity|].
    exists op, payload. repeat split; assumption.
  - rewrite (run_try_throw _ _ _ _ _ _ Htry). eexists. split; [reflexivity|].
    left. split; [reflexivity | eauto].
Qed.

(** An upstream rejection during a tool call is what its [try] block
    throws, once handled. *)
Lemma CallTool_try_rejection request up past outcome done req message response :
  run (CallTool_try request) up past = (outcome, done) ->
  In {| ex_request := req;
        ex_rejection := Some (AxiosErrorObj message response) |} done ->
  outcome = Throw (handleError (AxiosErrorObj message response)).
Proof.
  intros Htry Hin. destruct request as [name args].
  unfold Router.CallTool_try in Htry. cbn [tool_name arguments] in Htry.
  repeat match type of Htry with
  | context [if String.eqb name ?lit then _ else _] => destruct (String.eqb name lit)
  end;
  try (injection Htry as <- <-; contradiction);
  (destruct args as [args|]; [|injection Htry as <- <-; contradiction]);
  repeat match type of Htry with
  | context [if negb (has_key ?k ?a) then _ else _] =>
      destruct (has_key k a); cbn [negb] in Htry
  | context [match string_or_undefined ?v with _ => _ end] =>
      destruct (string_or_undefined v)
  end;
  try (injection Htry as <- <-; contradiction);
  rewrite run_bind_ret_map in Htry;
  match type of Htry with
  | context [run (searchCompanies ?p) up past] =>
      pose proof (perform_rejection (OpSearchCompanies p) up past) as Hperform
  | context [run (getCompanyDetails ?p) up past] =>
      pose proof (perform_rejection (OpGetCompanyDetails p) up past) as Hperform
  | context [run (getFundingRounds ?p) up past] =>
      pose proof (perform_rejection (OpGetFundingRounds p) up past) as Hperform
  | context [run (getAcquisitions ?p) up past] =>
      pose proof (perform_rejection (OpGetAcquisitions p) up past) as Hperform
  | context [run (searchPeople ?p) up past] =>
      pose proof (perform_rejection (OpSearchPeople p) up past) as Hperform
  end;
  unfold perform in Hperform;
  match type of Htry with
  | context [run ?m up past] =>
      destruct (run m up past) as [[a|e] done'] eqn:Hop
  end;
  injection Htry as <- <-;
  (eapply Hperform in Hin; [|rewrite run_bind_ret_map, Hop; reflexivity]);
  congruence.
Qed.

(** X21. When any upstream call made during a tool call is rejected, the
    tool result is the error result whose text is the message that
    [handleError] gives the rejection (for a 401, "Unauthorized: Invalid API
    key"), whichever tool was called. *)
Theorem tool_result_reports_upstream_rejection :
  forall request up past result done req message response,
    run (CallTool request) up past = (Return result, done) ->
    In {| ex_request := req;
          ex_rejection := Some (AxiosErrorObj message response) |} done ->
    exists text,
      handleError (AxiosErrorObj message response) = ErrorObj ClsError text
      /\ result = {| content := [ {| tc_type := "text"; tc_text := text |} ];
                     isError := Some true |}.
Proof.
  intros request up past result done req message response Hcall Hin.
  unfold Router.CallTool in Hcall.
  destruct (run (CallTool_try request) up past) as [outcome done'] eqn:Htry.
  destruct outcome as [returned|error].
  - rewrite (run_try_return _ _ _ _ _ _ Htry) in Hcall. injection Hcall as <- <-.
    discriminate (CallTool_try_rejection _ _ _ _ _ _ _ _ Htry Hin).
  - rewrite (run_try_throw _ _ _ _ _ _ Htry) in Hcall. cbn in Hcall.
    rewrite app_nil_r in Hcall. injection Hcall as <- <-.
    pose proof (CallTool_try_rejection _ _ _ _ _ _ _ _ Htry Hin) as [= ->].
    destruct (handleError_axios_is_plain message response) as [text Htext].
    exists text. split; [exact Htext|]. now rewrite Htext.
Qed.

(** X22. A call of the tool get_company_details with a name for which the
    resolution search reports zero results performs that one search and
    returns the error result with the text "Company not found: " followed by
    the name. *)
Theorem tool_reports_company_not_found :
  forall args name up past found,
    args !! "name_or_id" = Some (JStr name) ->
    organizations_search up past (resolution_request name) = Fulfilled found ->
    strict_eq_number (count found) (Number 0) = true ->
    run (CallTool {| tool_name := "get_company_details"; arguments := Some args |}) up past
    = (Return {| content := [ {| tc_type := "text";
                                 tc_text := "Company not found: " ++ name |} ];
                 isError := Some true |},
       [ {| ex_request := resolution_request name; ex_rejection := None |} ]).
Proof.
  intros args name up past found Harg Hsearch Hzero.
  pose proof (getCompanyDetails_cases {| name_or_id := name |} up past) as Hcases.
  cbv zeta in Hcases. cbn [name_or_id] in Hcases. rewrite Hsearch, Hzero in Hcases.
  assert (run (CallTool_try {| tool_name := "get_company_details";
                               arguments := Some args |}) up past
          = (Throw (ErrorObj ClsError ("Company not found: " ++ name)),
             [ {| ex_request := resolution_request name; ex_rejection := None |} ]))
    as Htry.
  { unfold Router.CallTool_try, has_key.
    cbn [tool_name arguments String.eqb Ascii.eqb Bool.eqb andb]. cbv iota.
    rewrite Harg. cbn [negb string_or_undefined].
    now rewrite run_bind_ret_map, Hcases. }
  unfold Router.CallTool. rewrite (run_try_throw _ _ _ _ _ _ Htry). reflexivity.
Qed.

(** X23. Arguments that the schema of a tool does not declare are ignored:
    adding one to the arguments of a call changes nothing in how the call
    runs. *)
Theorem undeclared_argument_is_ignored :
  forall tool key args value up past,
    In tool ListTools ->
    ~ In key (map fst (schema_properties (tl_inputSchema tool))) ->
    run (CallTool_try {| tool_name := tl_name tool;
                         arguments := Some (<[ key := value ]> args) |}) up past
    = run (CallTool_try {| tool_name := tl_name tool;
                           arguments := Some args |}) up past.
Proof.
  intros tool key args value up past Htool Hnot.
  destruct Htool as [<-|[<-|[<-|[<-|[<-|[]]]]]];
    cbn [tl_inputSchema schema_properties map fst limit_property] in Hnot;
    unfold Router.CallTool_try, has_key;
    cbn [tool_name arguments tl_name String.eqb Ascii.eqb Bool.eqb andb]; cbv iota;
    rewrite !lookup_insert_ne by (intros ->; apply Hnot; cbn; tauto);
    reflexivity.
Qed.

End RouterCoverage.

Lemma mistyped_optional_argument_is_dropped_witness :
  run (Router.CallTool_try (fun _ => "[]")
         {| tool_name := "search_people";
            arguments := Some (<[ "title" := JNum (Number 7) ]> {[ "query" := JStr "Ada" ]}) |})
      Samples.acme_service []
  = run (Router.CallTool_try (fun _ => "[]")
           {| tool_name := "search_people";
              arguments := Some (delete "title" {[ "query" := JStr "Ada" ]}) |})
        Samples.acme_service [].
Proof.
  apply (mistyped_optional_argument_is_dropped (fun _ => "[]")
           {| tl_name := "search_people";
              tl_description := "Search for people based on various criteria";
              tl_inputSchema :=
                {| schema_type := "object";
                   schema_properties :=
                     [ ("query",
                        {| ps_type := "string";
                           ps_description := "Search query (e.g., person name)" |});
                       ("company",
                        {| ps_type := "string"; ps_description := "Filter by company name" |});
                       ("title",
                        {| ps_type := "string"; ps_description := "Filter by job title" |});
                       limit_property ];
                   schema_required := None |} |}
           "title"
           {| ps_type := "string"; ps_description := "Filter by job title" |}
           {[ "query" := JStr "Ada" ]} (JNum (Number 7)) Samples.acme_service []).
  - do 4 right. left. reflexivity.
  - do 2 right. left. reflexivity.
  - intros [].
  - discriminate.
Defined.

Lemma arguments_object_is_needed_witness :
  run (Router.CallTool_try (fun _ => "[]")
         {| tool_name := "get_acquisitions"; arguments := None |})
      Samples.acme_service []
  = (Throw (McpErrorObj InvalidParams "Invalid parameters"), []).
Proof.
  apply (arguments_object_is_needed (fun _ => "[]")
           {| tl_name := "get_acquisitions";
              tl_description := "Get acquisitions made by or of a specific company";
              tl_inputSchema :=
                {| schema_type := "object";
                   schema_properties :=
                     [ ("company_name_or_id",
                        {| ps_type := "string"; ps_description := "Company name or UUID" |});
                       limit_property ];
                   schema_required := None |} |}
           Samples.acme_service []).
  - do 3 right. left. reflexivity.
  - reflexivity.
Defined.

Lemma tool_result_reports_upstream_rejection_witness :
  exists text,
    handleError (AxiosErrorObj "Request failed with status code 401"
                   (Samples.failure 401 None))
    = ErrorObj ClsError text
    /\ {| content := [ {| tc_type := "text"; tc_text := "Unauthorized: Invalid API key" |} ];
          isError := Some true |}
       = {| content := [ {| tc_type := "text"; tc_text := text |} ];
            isError := Some true |}.
Proof.
  apply (tool_result_reports_upstream_rejection (fun _ => "[]") (fun _ text => text)
           {| tool_name := "search_people"; arguments := Some ∅ |}
           (Samples.failing_service "Request failed with status code 401"
              (Samples.failure 401 None))
           [] _
           [ {| ex_request :=
                  {| req_url := "/searches/people"; req_query := Some "";
                     req_limit := Some (Number 10); req_order := Some "rank DESC" |};
                ex_rejection :=
                  Some (AxiosErrorObj "Request failed with status code 401"
                          (Samples.failure 401 None)) |} ]
           {| req_url := "/searches/people"; req_query := Some "";
              req_limit := Some (Number 10); req_order := Some "rank DESC" |}
           "Request failed with status code 401" (Samples.failure 401 None)).
  - reflexivity.
  - left. reflexivity.
Defined.

Lemma tool_reports_company_not_found_witness :
  run (Router.CallTool (fun _ => "[]") (fun _ text => text)
         {| tool_name := "get_company_details";
            arguments := Some {[ "name_or_id" := JStr "OpenAI" ]} |})
      Samples.empty_service []
  = (Return {| content := [ {| tc_type := "text";
                               tc_text := "Company not found: OpenAI" |} ];
               isError := Some true |},
     [ {| ex_request := resolution_request "OpenAI"; ex_rejection := None |} ]).
Proof.
  apply (tool_reports_company_not_found (fun _ => "[]") (fun _ text => text)
           {[ "name_or_id" := JStr "OpenAI" ]} "OpenAI" Samples.empty_service []
           Samples.no_results);
    reflexivity.
Defined.

Lemma undeclared_argument_is_ignored_witness :
  run (Router.CallTool_try (fun _ => "[]")
         {| tool_name := "get_company_details";
            arguments := Some (<[ "verbose" := JBool true ]>
                                 {[ "name_or_id" := JStr "Acme" ]}) |})
      Samples.acme_service []
  = run (Router.CallTool_try (fun _ => "[]")
           {| tool_name := "get_company_details";
              arguments := Some {[ "name_or_id" := JStr "Acme" ]} |})
        Samples.acme_service [].
Proof.
  apply (undeclared_argument_is_ignored (fun _ => "[]")
           {| tl_name := "get_company_details";
              tl_description := "Get detailed information about a specific company";
              tl_inputSchema :=
                {| schema_type := "object";
                   schema_properties :=
                     [ ("name_or_id",
                        {| ps_type := "string"; ps_description := "Company name or UUID" |}) ];
                   schema_required := Some ["name_or_id"] |} |}
           "verbose" {[ "name_or_id" := JStr "Acme" ]} (JBool true)
           Samples.acme_service []).
  - right. left. reflexivity.
  - cbn. intros [H|[]]. discriminate H.
Defined.

Section ResourceFailures.

Variable JSON_stringify : Payload -> string.
Variable McpError_message : ErrorCode -> string -> string.

Local Abbreviation ReadResource := (Router.ReadResource JSON_stringify McpError_message).
Local Abbreviation ReadResource_try := (Router.ReadResource_try JSON_stringify).

(** An upstream rejection during a resource read is what its [try] block
    throws, once handled. *)
Lemma ReadResource_try_rejection uri up past outcome done req message response :
  run (ReadResource_try uri) up past = (outcome, done) ->
  In {| ex_request := req;
        ex_rejection := Some (AxiosErrorObj message response) |} done ->
  outcome = Throw (handleError (AxiosErrorObj message response)).
Proof.
  intros Htry Hin. unfold Router.ReadResource_try, decodeURIComponent_async in Htry.
  repeat match type of Htry with
  | context [if String.eqb uri ?lit then _ else _] => destruct (String.eqb uri lit)
  | context [match match_companies ?s uri with _ => _ end] =>
      destruct (match_companies s uri)
  | context [match decodeURIComponent ?s with _ => _ end] =>
      destruct (decodeURIComponent s)
  end;
  rewrite ?run_bind_ret in Htry;
  try (injection Htry as <- <-; contradiction);
  rewrite run_bind_ret_map in Htry;
  match type of Htry with
  | context [run (searchCompanies ?p) up past] =>
      pose proof (perform_rejection (OpSearchCompanies p) up past) as Hperform
  | context [run (getCompanyDetails ?p) up past] =>
      pose proof (perform_rejection (OpGetCompanyDetails p) up past) as Hperform
  | context [run (getFundingRounds ?p) up past] =>
      pose proof (perform_rejection (OpGetFundingRounds p) up past) as Hperform
  | context [run (getAcquisitions ?p) up past] =>
      pose proof (perform_rejection (OpGetAcquisitions p) up past) as Hperform
  end;
  unfold perform in Hperform;
  match type of Htry with
  | context [run ?m up past] =>
      destruct (run m up past) as [[a|e] done'] eqn:Hop
  end;
  injection Htry as <- <-;
  (eapply Hperform in Hin; [|rewrite run_bind_ret_map, Hop; reflexivity]);
  congruence.
Qed.

(** X24. When any upstream call made during a resource read is rejected,
    the read throws the internal-error fault whose message is the one that
    [handleError] gives the rejection: the same text that a tool call would
    return in its error result, here as a fault. *)
Theorem resource_read_reports_upstream_rejection :
  forall uri up past outcome done req message response,
    run (ReadResource uri) up past = (outcome, done) ->
    In {| ex_request := req;
          ex_rejection := Some (AxiosErrorObj message response) |} done ->
    exists text,
      handleError (AxiosErrorObj message response) = ErrorObj ClsError text
      /\ outcome = Throw (McpErrorObj InternalError text).
Proof.
  intros uri up past outcome done req message response Hread Hin.
  unfold Router.ReadResource in Hread.
  destruct (run (ReadResource_try uri) up past) as [tried done'] eqn:Htry.
  destruct tried as [returned|error].
  - rewrite (run_try_return _ _ _ _ _ _ Htry) in Hread. injection Hread as <- <-.
    discriminate (ReadResource_try_rejection _ _ _ _ _ _ _ _ Htry Hin).
  - rewrite (run_try_throw _ _ _ _ _ _ Htry) in Hread.
    destruct (handleError_axios_is_plain message response) as [text Htext].
    exists text. split; [exact Htext|].
    assert (error = ErrorObj ClsError text) as ->.
    { assert (In {| ex_request := req;
                    ex_rejection := Some (AxiosErrorObj message response) |} done')
        as Hin'.
      { unfold ReadResource_catch in Hread.
        destruct (instanceof_McpError error); cbn in Hread;
          rewrite app_nil_r in Hread; injection Hread as _ <-; exact Hin. }
      pose proof (ReadResource_try_rejection _ _ _ _ _ _ _ _ Htry Hin') as [= ->].
      exact Htext. }
    cbn in Hread. now injection Hread as <- _.
Qed.

End ResourceFailures.

Lemma resource_read_reports_upstream_rejection_witness :
  exists text,
    handleError (AxiosErrorObj "Request failed with status code 429"
                   (Samples.failure 429 None))
    = ErrorObj ClsError text
    /\ fst (run (Router.ReadResource (fun _ => "[]") (fun _ text => text)
                   "crunchbase://trending/companies")
              (Samples.failing_service "Request failed with status code 429"
                 (Samples.failure 429 None)) [])
       = Throw (McpErrorObj InternalError text).
Proof.
  apply (resource_read_reports_upstream_rejection (fun _ => "[]") (fun _ text => text)
           "crunchbase://trending/companies"
           (Samples.failing_service "Request failed with status code 429"
              (Samples.failure 429 None))
           [] _
           [ {| ex_request :=
                  {| req_url := "/searches/organizations"; req_query := Some "";
                     req_limit := Some (Number 10); req_order := Some "rank DESC" |};
                ex_rejection :=
                  Some (AxiosErrorObj "Request failed with status code 429"
                          (Samples.failure 429 None)) |} ]
           {| req_url := "/searches/organizations"; req_query := Some "";
              req_limit := Some (Number 10); req_order := Some "rank DESC" |}
           "Request failed with status code 429" (Samples.failure 429 None)).
  - reflexivity.
  - left. reflexivity.
Defined.
